(** * Gaussian splatting: scene-parameter container and camera

    A shallow embedding of [src/gaussian.cu] (the [GaussianModel] class) and
    [src/camera.cu] (the [Camera] constructor and [loadCam]), together with
    the part of the libtorch tensor API those two files call.

    Layout of the development:
    - [F32], [F64]: IEEE-754 binary32 / binary64 arithmetic (round to nearest
      even), on the Standard Library's [spec_float];
    - [res], [Exec]: exceptions ([c10::Error]) and state passing;
    - [Torch]: tensors as a shape with row-major data, and the tensor
      operations used by the sources, each with the checks libtorch performs;
    - [GaussianModel], [Camera], [loadCam]: the translated sources;
    - the theorems. *)

From Stdlib Require Import ZArith Ascii Floats.SpecFloat.
From stdpp Require Import base list gmap strings.

Open Scope Z_scope.

(** ** Floating point *)

(** [float] tensors hold binary32 values. *)
Module F32.
Definition prec : Z := 24.
Definition emax : Z := 128.
Definition t := spec_float.

Definition of_Z (z : Z) : t := binary_normalize prec emax z 0 false.
Definition zero : t := S754_zero false.
Definition one : t := of_Z 1.
Definition add : t -> t -> t := SFadd prec emax.
Definition sub : t -> t -> t := SFsub prec emax.
Definition mul : t -> t -> t := SFmul prec emax.
Definition div : t -> t -> t := SFdiv prec emax.
Definition sqrt : t -> t := SFsqrt prec emax.
Definition ltb : t -> t -> bool := SFltb.

Definition is_nan (x : t) : bool :=
  match x with S754_nan => true | _ => false end.

(** [uint8_t] to [float]: exact. *)
Definition of_byte (b : Byte.byte) : t := of_Z (Z.of_N (Byte.to_N b)).

(** [std::max(x, lo)] with libtorch's NaN propagation. *)
Definition clamp_min (lo x : t) : t :=
  if is_nan x then x else if ltb x lo then lo else x.

(** [std::min(std::max(x, lo), hi)] with libtorch's NaN propagation. *)
Definition clamp (lo hi x : t) : t :=
  if is_nan x then x
  else if ltb x lo then lo
  else if ltb hi x then hi
  else x.
End F32.

(** [double] literals of the sources, and their narrowing to [float]. *)
Module F64.
Definition prec : Z := 53.
Definition emax : Z := 1024.
Definition t := spec_float.

Definition of_Z (z : Z) : t := binary_normalize prec emax z 0 false.
Definition div : t -> t -> t := SFdiv prec emax.

(** The literal [p / 10^k] (correctly rounded; [p] and [10^k] are exact
    for the literals below). *)
Definition decimal (p : Z) (k : Z) : t := div (of_Z p) (of_Z (10 ^ k)).

(** [static_cast<float>]: rounds the value to binary32. *)
Definition to_f32 (x : t) : F32.t :=
  match x with
  | S754_finite s m e =>
      binary_normalize F32.prec F32.emax (cond_Zopp s (Zpos m)) e s
  | _ => x
  end.

(** [static_cast<long>]: the fraction is dropped.  The conversion of an
    infinity or of a NaN has no defined result; it is not met below, where
    the argument is at most 2^62. *)
Definition to_Z (x : t) : Z :=
  match x with
  | S754_finite s m e =>
      cond_Zopp s (if 0 <=? e then Zpos m * 2 ^ e else Zpos m / 2 ^ (- e))
  | _ => 0
  end.
End F64.

Global Instance spec_float_inhabited : Inhabited spec_float :=
  populate (S754_zero false).
Global Instance byte_inhabited : Inhabited Byte.byte := populate Byte.x00.

(** ** Exceptions and state *)

(** What a libtorch call (or the C++ abstract machine) can raise in the code
    modelled here.  Each constructor stands for one [TORCH_CHECK]. *)
Inductive exn : Type :=
| DimOutOfRange (d : Z) (ndim : nat)
    (* IndexError: Dimension out of range (expected to be in range of ...) *)
| NoDimensions (d : Z)
    (* IndexError: dimension specified as d but tensor has no dimensions *)
| IndexOutOfBounds (i : Z) (d : nat) (extent : nat)
    (* IndexError: index i is out of bounds for dimension d with size ... *)
| TooManyIndices (ndim : nat)
    (* IndexError: too many indices for tensor of dimension ... *)
| EmptyIndexList
| ExpandMismatch (src target : list nat)
    (* The expanded size of the tensor must match the existing size ... *)
| NegativeDimension (n : Z)
    (* Trying to create tensor with negative dimension *)
| CatZeroDim
    (* zero-dimensional tensor cannot be concatenated *)
| CatEmptyList
| CatRankMismatch (a b : nat)
    (* Tensors must have same number of dimensions *)
| CatSizeMismatch (d : nat) (a b : list nat)
    (* Sizes of tensors must match except in dimension d *)
| RepeatRank (nreps ndim : nat)
| PermuteDims
| BmmShape (a b : list nat)
| MmShape (a b : list nat)
| NotSquare (s : list nat)
| SingularMatrix
| BadParameterName (name : string)
    (* Parameter name must not be empty / must not contain a dot *)
| KeyAlreadyDefined (kind key : string)
    (* OrderedDict::insert: Parameter 'key' already defined *)
| OutOfBoundsRead
| InvalidFree
| UninitializedRead (member : string).

Inductive res (A : Type) : Type :=
| Ok (a : A)
| Raise (e : exn).
Arguments Ok {A} a.
Arguments Raise {A} e.

Definition res_bind {A B} (r : res A) (k : A -> res B) : res B :=
  match r with
  | Ok a => k a
  | Raise e => Raise e
  end.

Definition is_Ok {A} (r : res A) : bool :=
  match r with Ok _ => true | Raise _ => false end.

Declare Scope res_scope.
Delimit Scope res_scope with res.
Notation "x <-- r ;; k" := (res_bind r (fun x => k))
  (at level 100, r at next level, right associativity) : res_scope.
Notation "'check' b 'else' e ;; k" := (if b then k else Raise e)
  (at level 100, b at next level, e at next level, right associativity)
  : res_scope.
Open Scope res_scope.

(** A member function: runs on the object [St], may update it, and either
    returns or throws.  Updates made before a throw stay. *)
Definition Exec (St A : Type) : Type := St -> St * res A.

Definition exec_ret {St A} (a : A) : Exec St A := fun s => (s, Ok a).

Definition exec_bind {St A B} (m : Exec St A) (k : A -> Exec St B)
  : Exec St B :=
  fun s =>
    match m s with
    | (s', Ok a) => k a s'
    | (s', Raise e) => (s', Raise e)
    end.

Definition exec_lift {St A} (r : res A) : Exec St A := fun s => (s, r).
Definition exec_get {St} : Exec St St := fun s => (s, Ok s).
Definition exec_modify {St} (f : St -> St) : Exec St unit :=
  fun s => (f s, Ok tt).

Declare Scope exec_scope.
Delimit Scope exec_scope with exec.
Notation "x <~ m ;; k" := (exec_bind m (fun x => k))
  (at level 100, m at next level, right associativity) : exec_scope.
Notation "m ;;; k" := (exec_bind m (fun _ => k))
  (at level 100, right associativity) : exec_scope.

(** ** Tensors

    A tensor is its shape and its elements in row-major order (the value of a
    contiguous tensor; views are materialised).  Every operation below
    performs the argument checks of the libtorch operation it stands for and
    raises where libtorch throws. *)
Module Torch.

Record Tensor (A : Type) : Type := mkTensor {
  sizes : list nat;
  data : list A
}.
Arguments mkTensor {A} sizes data.
Arguments sizes {A} t.
Arguments data {A} t.

Definition numel (s : list nat) : nat := foldr Nat.mul 1%nat s.

(** Row-major offset of a multi-index. *)
Fixpoint offset (s idx : list nat) : nat :=
  match s, idx with
  | _ :: s', i :: idx' => (i * numel s' + offset s' idx')%nat
  | _, _ => 0%nat
  end.

(** The elements [f idx] for [idx] ranging over the shape [s], row-major. *)
Fixpoint tabulate {A} (s : list nat) (f : list nat -> A) : list A :=
  match s with
  | [] => [f []]
  | n :: s' =>
      mjoin (map (fun i => tabulate s' (fun idx => f (i :: idx))) (seq 0 n))
  end.

Definition get {A} `{Inhabited A} (t : Tensor A) (idx : list nat) : A :=
  data t !!! offset (sizes t) idx.

Definition dim {A} (t : Tensor A) : nat := length (sizes t).

Definition tmap {A B} (f : A -> B) (t : Tensor A) : Tensor B :=
  mkTensor (sizes t) (map f (data t)).

(** [c10::maybe_wrap_dim]: a dimension argument may count from the end; a
    0-dimensional tensor is treated as 1-dimensional. *)
Definition maybe_wrap_dim (d : Z) (ndim : nat) : res nat :=
  let n := Z.max 1 (Z.of_nat ndim) in
  if (- n <=? d) && (d <? n)
  then Ok (Z.to_nat (if d <? 0 then d + n else d))
  else Raise (DimOutOfRange d ndim).

(** [Tensor::size(d)]. *)
Definition size {A} (t : Tensor A) (d : Z) : res Z :=
  match sizes t with
  | [] => Raise (NoDimensions d)
  | _ =>
      k <-- maybe_wrap_dim d (dim t) ;;
      Ok (Z.of_nat (sizes t !!! k))
  end.

(** Shapes come from [long] arguments; a negative extent is refused. *)
Fixpoint shape_of (zs : list Z) : res (list nat) :=
  match zs with
  | [] => Ok []
  | z :: zs' =>
      check (0 <=? z) else NegativeDimension z ;;
      s <-- shape_of zs' ;;
      Ok (Z.to_nat z :: s)
  end.

(** [torch::full]: the storage is taken to be allocated.  Where a
    statement below depends on a tensor whose size grows with the maximal
    degree, it bounds the degree. *)
Definition full {A} (zs : list Z) (x : A) : res (Tensor A) :=
  s <-- shape_of zs ;;
  Ok (mkTensor s (replicate (numel s) x)).

Definition zeros (zs : list Z) : res (Tensor F32.t) := full zs F32.zero.
Definition ones (zs : list Z) : res (Tensor F32.t) := full zs F32.one.

(** [torch::empty({0})]: no element, so nothing uninitialised is visible. *)
Definition empty0 {A} : Tensor A := mkTensor [0%nat] [].

(** [torch::from_blob(p, sizes)] followed by a read of the elements:
    [mem] is what is stored from [p] on, as elements of the tensor's type.
    Reading past the end of [mem] has no defined behaviour. *)
Definition from_blob {A} (mem : list A) (zs : list Z) : res (Tensor A) :=
  s <-- shape_of zs ;;
  check (numel s <=? length mem)%nat else OutOfBoundsRead ;;
  Ok (mkTensor s (take (numel s) mem)).

(** [torch::from_blob(p, sizes, strides)] followed by a read. *)
Definition from_blob_strided {A} `{Inhabited A}
    (mem : list A) (zs strides : list Z) : res (Tensor A) :=
  s <-- shape_of zs ;;
  let addr (idx : list nat) : Z :=
    foldr Z.add 0 (zip_with (fun i st => Z.of_nat i * st) idx strides) in
  let addrs := tabulate s addr in
  check forallb (fun a => (0 <=? a) && (a <? Z.of_nat (length mem))) addrs
    else OutOfBoundsRead ;;
  Ok (mkTensor s (map (fun a => mem !!! Z.to_nat a) addrs)).

(** *** Views: a shape and where each of its indices lies in the base *)

Record View : Type := mkView {
  vsizes : list nat;
  vmap : list nat -> list nat
}.

Definition view_id (s : list nat) : View := mkView s (fun idx => idx).

(** Dimension [k] fixed at [i]; the dimension disappears. *)
Definition view_select (v : View) (k i : nat) : View :=
  mkView (delete k (vsizes v))
         (fun idx => vmap v (take k idx ++ i :: drop k idx)).

(** Dimension [k] restricted to [start, start + len). *)
Definition view_slice (v : View) (k start len : nat) : View :=
  mkView (<[k := len]> (vsizes v))
         (fun idx => vmap v (alter (Nat.add start) k idx)).

(** New dimension [j] is old dimension [perm !!! j]. *)
Definition view_permute (v : View) (perm : list nat) : View :=
  mkView (map (fun d => vsizes v !!! d) perm)
         (fun idx =>
            vmap v (foldr (fun jd acc => <[jd.2 := idx !!! jd.1]> acc)
                          (replicate (length perm) 0%nat)
                          (zip (seq 0 (length perm)) perm))).

Definition materialize {A} `{Inhabited A} (t : Tensor A) (v : View)
  : Tensor A :=
  mkTensor (vsizes v) (tabulate (vsizes v) (fun idx => get t (vmap v idx))).

(** Writes [val idx] at every index of the view, in place in the base. *)
Definition scatter {A} (t : Tensor A) (v : View) (val : list nat -> A)
  : Tensor A :=
  mkTensor (sizes t)
    (foldl (fun d idx => <[offset (sizes t) (vmap v idx) := val idx]> d)
           (data t) (tabulate (vsizes v) (fun idx => idx))).

(** *** Indexing with [torch::indexing] *)

Inductive TensorIndex : Type :=
| Slice (start stop : option Z)
| Int (i : Z).

(** [Slice()], [Slice(a)], [Slice(a, b)]. *)
Definition Slice_ : TensorIndex := Slice None None.
Definition Slice1 (a : Z) : TensorIndex := Slice (Some a) None.
Definition Slice2 (a b : Z) : TensorIndex := Slice (Some a) (Some b).

(** [at::slice] with step 1: bounds count from the end when negative and
    are clamped to the extent.  Returns the start and the length. *)
Definition clamp_slice (n : nat) (start stop : option Z) : nat * nat :=
  let n' := Z.of_nat n in
  let a := default 0 start in
  let a := if a <? 0 then a + n' else a in
  let a := if a <? 0 then 0 else if n' <=? a then n' else a in
  let b := match stop with
           | None => n'
           | Some b =>
               let b := if b <? 0 then b + n' else b in
               if b <? a then a else if n' <=? b then n' else b
           end in
  (Z.to_nat a, Z.to_nat (b - a)).

(** [at::indexing::impl::applySlicing]: a slice keeps its dimension and
    moves to the next one; an integer selects and removes its dimension. *)
Fixpoint apply_slicing (ndim : nat) (v : View) (k : nat)
    (idxs : list TensorIndex) : res View :=
  match idxs with
  | [] => Ok v
  | ix :: rest =>
      match vsizes v !! k with
      | None => Raise (TooManyIndices ndim)
      | Some n =>
          match ix with
          | Slice start stop =>
              let '(a, len) := clamp_slice n start stop in
              apply_slicing ndim (view_slice v k a len) (S k) rest
          | Int i =>
              check (- Z.of_nat n <=? i) && (i <? Z.of_nat n)
                else IndexOutOfBounds i k n ;;
              let i' := Z.to_nat (if i <? 0 then i + Z.of_nat n else i) in
              apply_slicing ndim (view_select v k i') k rest
          end
      end
  end.

Definition index_view {A} (t : Tensor A) (idxs : list TensorIndex)
  : res View :=
  check (0 <? length idxs)%nat else EmptyIndexList ;;
  check (length idxs <=? dim t)%nat else TooManyIndices (dim t) ;;
  apply_slicing (dim t) (view_id (sizes t)) 0 idxs.

(** [Tensor::index(indices)]. *)
Definition index {A} `{Inhabited A} (t : Tensor A)
    (idxs : list TensorIndex) : res (Tensor A) :=
  v <-- index_view t idxs ;;
  Ok (materialize t v).

(** [at::expand]: shapes are aligned at the last dimension; a source extent
    must equal the target extent or be 1. *)
Definition expandable (ss ts : list nat) : bool :=
  (length ss <=? length ts)%nat
  && forallb (fun p => (p.1 =? p.2)%nat || (p.1 =? 1)%nat)
             (zip ss (drop (length ts - length ss) ts)).

Definition expand_index (ss ts idx : list nat) : list nat :=
  zip_with (fun n i => if (n =? 1)%nat then 0%nat else i)
           ss (drop (length ts - length ss) idx).

(** [at::indexing::slicePrefix1sSize]. *)
Fixpoint slicePrefix1sSize (s : list nat) : list nat :=
  match s with
  | 1%nat :: s' => slicePrefix1sSize s'
  | _ => s
  end.

(** [at::indexing::copy_to]: equal shapes are copied as they are, otherwise
    the value, without its leading 1s, is broadcast into the view. *)
Definition copy_to {A} `{Inhabited A} (t : Tensor A) (v : View)
    (src : Tensor A) : res (Tensor A) :=
  if bool_decide (vsizes v = sizes src)
  then Ok (scatter t v (get src))
  else
    let ss := slicePrefix1sSize (sizes src) in
    check expandable ss (vsizes v) else ExpandMismatch ss (vsizes v) ;;
    Ok (scatter t v (fun idx =>
          get (mkTensor ss (data src)) (expand_index ss (vsizes v) idx))).

(** [Tensor::index_put_(indices, value)] with a tensor value. *)
Definition index_put_ {A} `{Inhabited A} (t : Tensor A)
    (idxs : list TensorIndex) (value : Tensor A) : res (Tensor A) :=
  v <-- index_view t idxs ;;
  copy_to t v value.

(** [Tensor::index_put_(indices, value)] with a scalar value: the scalar is
    a 0-dimensional tensor, which broadcasts into any view. *)
Definition index_put_scalar {A} (t : Tensor A)
    (idxs : list TensorIndex) (x : A) : res (Tensor A) :=
  v <-- index_view t idxs ;;
  Ok (scatter t v (fun _ => x)).

(** *** Shape changes *)

Definition transpose {A} `{Inhabited A} (t : Tensor A) (d0 d1 : Z)
  : res (Tensor A) :=
  k0 <-- maybe_wrap_dim d0 (dim t) ;;
  k1 <-- maybe_wrap_dim d1 (dim t) ;;
  let perm := <[k0 := k1]> (<[k1 := k0]> (seq 0 (dim t))) in
  Ok (materialize t (view_permute (view_id (sizes t)) perm)).

Fixpoint wrap_dims (ds : list Z) (ndim : nat) : res (list nat) :=
  match ds with
  | [] => Ok []
  | d :: ds' =>
      k <-- maybe_wrap_dim d ndim ;;
      ks <-- wrap_dims ds' ndim ;;
      Ok (k :: ks)
  end.

Definition permute {A} `{Inhabited A} (t : Tensor A) (ds : list Z)
  : res (Tensor A) :=
  check (length ds =? dim t)%nat else PermuteDims ;;
  perm <-- wrap_dims ds (dim t) ;;
  check bool_decide (NoDup perm) else PermuteDims ;;
  Ok (materialize t (view_permute (view_id (sizes t)) perm)).

Definition unsqueeze {A} (t : Tensor A) (d : Z) : res (Tensor A) :=
  k <-- maybe_wrap_dim d (dim t + 1) ;;
  Ok (mkTensor (take k (sizes t) ++ 1%nat :: drop k (sizes t)) (data t)).

Definition squeeze {A} (t : Tensor A) (d : Z) : res (Tensor A) :=
  k <-- maybe_wrap_dim d (dim t) ;;
  match sizes t !! k with
  | Some 1%nat => Ok (mkTensor (delete k (sizes t)) (data t))
  | _ => Ok t
  end.

(** [Tensor::repeat(reps)]. *)
Definition repeat {A} `{Inhabited A} (t : Tensor A) (reps : list Z)
  : res (Tensor A) :=
  check (dim t <=? length reps)%nat else RepeatRank (length reps) (dim t) ;;
  rs <-- shape_of reps ;;
  let padded := replicate (length rs - dim t) 1%nat ++ sizes t in
  let target := zip_with Nat.mul padded rs in
  Ok (mkTensor target
        (tabulate target (fun idx =>
           get (mkTensor padded (data t)) (zip_with Nat.modulo idx padded)))).

(** [Tensor::select(d, i)]; [t[i]] is [select(0, i)]. *)
Definition select {A} `{Inhabited A} (t : Tensor A) (d i : Z)
  : res (Tensor A) :=
  match sizes t with
  | [] => Raise (NoDimensions d)
  | _ =>
      k <-- maybe_wrap_dim d (dim t) ;;
      let n := sizes t !!! k in
      check (- Z.of_nat n <=? i) && (i <? Z.of_nat n)
        else IndexOutOfBounds i k n ;;
      let i' := Z.to_nat (if i <? 0 then i + Z.of_nat n else i) in
      Ok (materialize t (view_select (view_id (sizes t)) k i'))
  end.

(** [Tensor::slice(d, start, stop)]. *)
Definition slice {A} `{Inhabited A} (t : Tensor A) (d start stop : Z)
  : res (Tensor A) :=
  match sizes t with
  | [] => Raise (NoDimensions d)
  | _ =>
      k <-- maybe_wrap_dim d (dim t) ;;
      let '(a, len) := clamp_slice (sizes t !!! k) (Some start) (Some stop) in
      Ok (materialize t (view_slice (view_id (sizes t)) k a len))
  end.

(** *** Concatenation *)

(** A 1-dimensional tensor with no element is skipped by [torch::cat]. *)
Definition cat_should_skip {A} (t : Tensor A) : bool :=
  bool_decide (sizes t = [0%nat]).

Fixpoint cat_get {A} `{Inhabited A} (ts : list (Tensor A)) (k : nat)
    (idx : list nat) : A :=
  match ts with
  | [] => inhabitant
  | t :: ts' =>
      let n := sizes t !!! k in
      let i := idx !!! k in
      if (i <? n)%nat then get t idx
      else cat_get ts' k (<[k := (i - n)%nat]> idx)
  end.

Fixpoint cat_check {A} (k : nat) (s0 : list nat) (ts : list (Tensor A))
  : res unit :=
  match ts with
  | [] => Ok tt
  | t :: ts' =>
      check (dim t =? length s0)%nat
        else CatRankMismatch (length s0) (dim t) ;;
      check bool_decide (delete k (sizes t) = delete k s0)
        else CatSizeMismatch k s0 (sizes t) ;;
      cat_check k s0 ts'
  end.

(** [torch::cat(tensors, d)]. *)
Definition cat {A} `{Inhabited A} (ts : list (Tensor A)) (d : Z)
  : res (Tensor A) :=
  check forallb (fun t => negb (dim t =? 0)%nat) ts else CatZeroDim ;;
  check (0 <? length ts)%nat else CatEmptyList ;;
  match filter (fun t => cat_should_skip t = false) ts with
  | [] => Ok (mkTensor [0%nat] [])
  | (t0 :: _) as valid =>
      k <-- maybe_wrap_dim d (dim t0) ;;
      _ <-- cat_check k (sizes t0) valid ;;
      let total := foldr Nat.add 0%nat (map (fun t => sizes t !!! k) valid) in
      let target := <[k := total]> (sizes t0) in
      Ok (mkTensor target (tabulate target (cat_get valid k)))
  end.

(** *** Products *)

(** Inner product of row [i] of [a] and column [j] of [b], accumulated from
    zero in index order. *)
Definition dot (k : nat) (a b : nat -> F32.t) : F32.t :=
  foldl (fun acc l => F32.add acc (F32.mul (a l) (b l))) F32.zero (seq 0 k).

(** [Tensor::bmm]: both arguments are batches of matrices. *)
Definition bmm (a b : Tensor F32.t) : res (Tensor F32.t) :=
  match sizes a, sizes b with
  | [ba; n; m], [bb; m'; p] =>
      check (ba =? bb)%nat && (m =? m')%nat
        else BmmShape (sizes a) (sizes b) ;;
      Ok (mkTensor [ba; n; p]
            (tabulate [ba; n; p] (fun idx =>
               let c := idx !!! 0%nat in
               let i := idx !!! 1%nat in
               let j := idx !!! 2%nat in
               dot m (fun l => get a [c; i; l]) (fun l => get b [c; l; j]))))
  | _, _ => Raise (BmmShape (sizes a) (sizes b))
  end.

(** [torch::mm]: both arguments are matrices. *)
Definition mm (a b : Tensor F32.t) : res (Tensor F32.t) :=
  match sizes a, sizes b with
  | [n; m], [m'; p] =>
      check (m =? m')%nat else MmShape (sizes a) (sizes b) ;;
      Ok (mkTensor [n; p]
            (tabulate [n; p] (fun idx =>
               let i := idx !!! 0%nat in
               let j := idx !!! 1%nat in
               dot m (fun l => get a [i; l]) (fun l => get b [l; j]))))
  | _, _ => Raise (MmShape (sizes a) (sizes b))
  end.

(** *** Element-wise arithmetic *)

(** [at::infer_size] on the reversed shapes: two operands are aligned at
    their last dimension, and two extents must be equal unless one of them
    is 1. *)
Fixpoint infer_size_rev (a b : list nat) : option (list nat) :=
  match a, b with
  | [], _ => Some b
  | _, [] => Some a
  | x :: a', y :: b' =>
      if (x =? y)%nat || (x =? 1)%nat || (y =? 1)%nat
      then cons (if (x =? 1)%nat then y else x) <$> infer_size_rev a' b'
      else None
  end.

(** [a * b] on two tensors, with broadcasting. *)
Definition mul (a b : Tensor F32.t) : res (Tensor F32.t) :=
  match infer_size_rev (reverse (sizes a)) (reverse (sizes b)) with
  | None => Raise (ExpandMismatch (sizes a) (sizes b))
  | Some r =>
      let s := reverse r in
      Ok (mkTensor s
            (tabulate s (fun idx =>
               F32.mul (get a (expand_index (sizes a) s idx))
                       (get b (expand_index (sizes b) s idx)))))
  end.

Definition clamp (t : Tensor F32.t) (lo hi : F32.t) : Tensor F32.t :=
  tmap (F32.clamp lo hi) t.

Definition clamp_min (t : Tensor F32.t) (lo : F32.t) : Tensor F32.t :=
  tmap (F32.clamp_min lo) t.

End Torch.

Abbreviation FloatTensor := (Torch.Tensor F32.t).

(** ** The point cloud and the training configuration *)

(** Modelled from the spec: [PointCloud] and its element types are declared
    in a header that is not part of the sources at hand; the spec gives a
    point cloud parallel arrays of positions (3 floats per point) and colors
    (3 floats per point, in [0,1]). *)
Record Point : Type := mkPoint { x : F32.t; y : F32.t; z : F32.t }.
Record Color : Type := mkColor { r : F32.t; g : F32.t; b : F32.t }.
Record PointCloud : Type := mkPointCloud {
  _points : list Point;
  _colors : list Color
}.

(** What [pcd._points.data()] and [pcd._colors.data()] point to, read as
    [float]s. *)
Definition points_data (pcd : PointCloud) : list F32.t :=
  p ← _points pcd; [x p; y p; z p].
Definition colors_data (pcd : PointCloud) : list F32.t :=
  c ← _colors pcd; [r c; g c; b c].

(** Modelled from the spec: [OptimizationParameters] is declared outside the
    sources at hand; these are the members [training_setup] reads. *)
Record OptimizationParameters : Type := mkOptimizationParameters {
  params_percent_dense : F32.t;
  position_lr_init : F32.t;
  position_lr_final : F32.t;
  position_lr_delay_mult : F32.t;
  position_lr_max_steps : Z
}.

(** Modelled from the spec: [Expon_lr_func] is declared outside the sources
    at hand; a schedule is the arguments it was constructed with. *)
Record Expon_lr_func : Type := mkExpon_lr_func {
  lr_init : spec_float;
  lr_final : spec_float;
  lr_delay_mult : spec_float;
  max_steps : Z
}.

(** [torch::optim::Adam(params, AdamOptions(lr).eps(eps))]. *)
Record Adam : Type := mkAdam {
  adam_params : list FloatTensor;
  adam_lr : F64.t;
  adam_eps : F64.t
}.

(** ** GaussianModel ([src/gaussian.cu]) *)

(** The members the member functions of the file read or write.  [_denom],
    [_spatial_lr_scale] and [percent_dense] are not given a value by the
    constructor: [None] is a default-constructed (undefined) tensor, resp. an
    indeterminate [float].  [parameters_] is the ordered dictionary of
    [torch::nn::Module], which [register_parameter] and [parameters] use.
    The activation members bound at lines 26-42 are read by no member
    function of the file and are left out, as is the autograd flag of a
    tensor. *)
Record GaussianModel : Type := mkGaussianModel {
  max_sh_degree : Z;
  active_sh_degree : Z;
  _xyz_scheduler_args : Expon_lr_func;
  _xyz : FloatTensor;
  _features_dc : FloatTensor;
  _features_rest : FloatTensor;
  _scaling : FloatTensor;
  _rotation : FloatTensor;
  _opacity : FloatTensor;
  _max_radii2D : FloatTensor;
  _xyz_gradient_accum : FloatTensor;
  _denom : option FloatTensor;
  optimizer : option Adam;
  parameters_ : list (string * FloatTensor);
  _spatial_lr_scale : option F32.t;
  percent_dense : option F32.t
}.

(** Assignments to one member. *)
Definition set_active_sh_degree (v : Z) (m : GaussianModel) : GaussianModel :=
  mkGaussianModel
    (max_sh_degree m) v (_xyz_scheduler_args m)
    (_xyz m) (_features_dc m) (_features_rest m)
    (_scaling m) (_rotation m) (_opacity m)
    (_max_radii2D m) (_xyz_gradient_accum m) (_denom m)
    (optimizer m) (parameters_ m) (_spatial_lr_scale m)
    (percent_dense m).
Definition set_xyz_scheduler_args (v : Expon_lr_func) (m : GaussianModel) : GaussianModel :=
  mkGaussianModel
    (max_sh_degree m) (active_sh_degree m) v
    (_xyz m) (_features_dc m) (_features_rest m)
    (_scaling m) (_rotation m) (_opacity m)
    (_max_radii2D m) (_xyz_gradient_accum m) (_denom m)
    (optimizer m) (parameters_ m) (_spatial_lr_scale m)
    (percent_dense m).
Definition set_xyz (v : FloatTensor) (m : GaussianModel) : GaussianModel :=
  mkGaussianModel
    (max_sh_degree m) (active_sh_degree m) (_xyz_scheduler_args m)
    v (_features_dc m) (_features_rest m)
    (_scaling m) (_rotation m) (_opacity m)
    (_max_radii2D m) (_xyz_gradient_accum m) (_denom m)
    (optimizer m) (parameters_ m) (_spatial_lr_scale m)
    (percent_dense m).
Definition set_features_dc (v : FloatTensor) (m : GaussianModel) : GaussianModel :=
  mkGaussianModel
    (max_sh_degree m) (active_sh_degree m) (_xyz_scheduler_args m)
    (_xyz m) v (_features_rest m)
    (_scaling m) (_rotation m) (_opacity m)
    (_max_radii2D m) (_xyz_gradient_accum m) (_denom m)
    (optimizer m) (parameters_ m) (_spatial_lr_scale m)
    (percent_dense m).
Definition set_features_rest (v : FloatTensor) (m : GaussianModel) : GaussianModel :=
  mkGaussianModel
    (max_sh_degree m) (active_sh_degree m) (_xyz_scheduler_args m)
    (_xyz m) (_features_dc m) v
    (_scaling m) (_rotation m) (_opacity m)
    (_max_radii2D m) (_xyz_gradient_accum m) (_denom m)
    (optimizer m) (parameters_ m) (_spatial_lr_scale m)
    (percent_dense m).
Definition set_scaling (v : FloatTensor) (m : GaussianModel) : GaussianModel :=
  mkGaussianModel
    (max_sh_degree m) (active_sh_degree m) (_xyz_scheduler_args m)
    (_xyz m) (_features_dc m) (_features_rest m)
    v (_rotation m) (_opacity m)
    (_max_radii2D m) (_xyz_gradient_accum m) (_denom m)
    (optimizer m) (parameters_ m) (_spatial_lr_scale m)
    (percent_dense m).
Definition set_rotation (v : FloatTensor) (m : GaussianModel) : GaussianModel :=
  mkGaussianModel
    (max_sh_degree m) (active_sh_degree m) (_xyz_scheduler_args m)
    (_xyz m) (_features_dc m) (_features_rest m)
    (_scaling m) v (_opacity m)
    (_max_radii2D m) (_xyz_gradient_accum m) (_denom m)
    (optimizer m) (parameters_ m) (_spatial_lr_scale m)
    (percent_dense m).
Definition set_opacity (v : FloatTensor) (m : GaussianModel) : GaussianModel :=
  mkGaussianModel
    (max_sh_degree m) (active_sh_degree m) (_xyz_scheduler_args m)
    (_xyz m) (_features_dc m) (_features_rest m)
    (_scaling m) (_rotation m) v
    (_max_radii2D m) (_xyz_gradient_accum m) (_denom m)
    (optimizer m) (parameters_ m) (_spatial_lr_scale m)
    (percent_dense m).
Definition set_max_radii2D (v : FloatTensor) (m : GaussianModel) : GaussianModel :=
  mkGaussianModel
    (max_sh_degree m) (active_sh_degree m) (_xyz_scheduler_args m)
    (_xyz m) (_features_dc m) (_features_rest m)
    (_scaling m) (_rotation m) (_opacity m)
    v (_xyz_gradient_accum m) (_denom m)
    (optimizer m) (parameters_ m) (_spatial_lr_scale m)
    (percent_dense m).
Definition set_xyz_gradient_accum (v : FloatTensor) (m : GaussianModel) : GaussianModel :=
  mkGaussianModel
    (max_sh_degree m) (active_sh_degree m) (_xyz_scheduler_args m)
    (_xyz m) (_features_dc m) (_features_rest m)
    (_scaling m) (_rotation m) (_opacity m)
    (_max_radii2D m) v (_denom m)
    (optimizer m) (parameters_ m) (_spatial_lr_scale m)
    (percent_dense m).
Definition set_denom (v : option FloatTensor) (m : GaussianModel) : GaussianModel :=
  mkGaussianModel
    (max_sh_degree m) (active_sh_degree m) (_xyz_scheduler_args m)
    (_xyz m) (_features_dc m) (_features_rest m)
    (_scaling m) (_rotation m) (_opacity m)
    (_max_radii2D m) (_xyz_gradient_accum m) v
    (optimizer m) (parameters_ m) (_spatial_lr_scale m)
    (percent_dense m).
Definition set_optimizer (v : option Adam) (m : GaussianModel) : GaussianModel :=
  mkGaussianModel
    (max_sh_degree m) (active_sh_degree m) (_xyz_scheduler_args m)
    (_xyz m) (_features_dc m) (_features_rest m)
    (_scaling m) (_rotation m) (_opacity m)
    (_max_radii2D m) (_xyz_gradient_accum m) (_denom m)
    v (parameters_ m) (_spatial_lr_scale m)
    (percent_dense m).
Definition set_parameters_ (v : list (string * FloatTensor)) (m : GaussianModel) : GaussianModel :=
  mkGaussianModel
    (max_sh_degree m) (active_sh_degree m) (_xyz_scheduler_args m)
    (_xyz m) (_features_dc m) (_features_rest m)
    (_scaling m) (_rotation m) (_opacity m)
    (_max_radii2D m) (_xyz_gradient_accum m) (_denom m)
    (optimizer m) v (_spatial_lr_scale m)
    (percent_dense m).
Definition set_spatial_lr_scale (v : option F32.t) (m : GaussianModel) : GaussianModel :=
  mkGaussianModel
    (max_sh_degree m) (active_sh_degree m) (_xyz_scheduler_args m)
    (_xyz m) (_features_dc m) (_features_rest m)
    (_scaling m) (_rotation m) (_opacity m)
    (_max_radii2D m) (_xyz_gradient_accum m) (_denom m)
    (optimizer m) (parameters_ m) v
    (percent_dense m).
Definition set_percent_dense (v : option F32.t) (m : GaussianModel) : GaussianModel :=
  mkGaussianModel
    (max_sh_degree m) (active_sh_degree m) (_xyz_scheduler_args m)
    (_xyz m) (_features_dc m) (_features_rest m)
    (_scaling m) (_rotation m) (_opacity m)
    (_max_radii2D m) (_xyz_gradient_accum m) (_denom m)
    (optimizer m) (parameters_ m) (_spatial_lr_scale m)
    v.

(** [int] arithmetic, with its wrap-around. *)
Definition int_wrap (v : Z) : Z := (v + 2 ^ 31) mod 2 ^ 32 - 2 ^ 31.

Fixpoint contains_dot (s : string) : bool :=
  match s with
  | EmptyString => false
  | String c s' => Ascii.eqb c "."%char || contains_dot s'
  end.

(** [torch::nn::Module::register_parameter(name, tensor, requires_grad)]:
    the name is checked, and [OrderedDict::insert] refuses a key that is
    already present. *)
Definition register_parameter (name : string) (tensor : FloatTensor)
  : Exec GaussianModel unit :=
  fun m =>
    if String.eqb name EmptyString
    then (m, Raise (BadParameterName name))
    else if contains_dot name
    then (m, Raise (BadParameterName name))
    else if existsb (String.eqb name) (map fst (parameters_ m))
    then (m, Raise (KeyAlreadyDefined "Parameter" name))
    else (set_parameters_ (parameters_ m ++ [(name, tensor)]) m, Ok tt).

(** [torch::nn::Module::parameters()]. *)
Definition parameters (m : GaussianModel) : list FloatTensor :=
  map snd (parameters_ m).

Section Model.

Set Default Proof Using "Type".

(** Functions of the repository or of its dependencies that the file calls
    and that are not part of the sources at hand. *)

(** [torch::log] on one element. *)
Variable f32_log : F32.t -> F32.t.

(** Modelled from the spec: [RGB2SH] is the fixed RGB-to-SH0 linear
    transform, applied to every element. *)
Variable rgb2sh : F32.t -> F32.t.

(** Modelled from the spec: [distCUDA2] gives, for each of the [P] rows of
    its argument, the mean squared distance to its nearest neighbours;
    [knn_mean_dist2 d i] is that mean for row [i] of the data [d]. *)
Variable knn_mean_dist2 : list F32.t -> nat -> F32.t.

(** The two defaulted arguments of [Expon_lr_func(lr_init, lr_final)]. *)
Variable default_lr_delay_mult : spec_float.
Variable default_max_steps : Z.

Definition RGB2SH (t : FloatTensor) : FloatTensor := Torch.tmap rgb2sh t.

Definition distCUDA2 (points : FloatTensor) : res FloatTensor :=
  p <-- Torch.size points 0 ;;
  Ok (Torch.mkTensor [Z.to_nat p]
        (map (knn_mean_dist2 (Torch.data points)) (seq 0 (Z.to_nat p)))).

(** Modelled from the spec: [inverse_sigmoid] is the logit,
    [log(x / (1 - x))], element by element. *)
Definition inverse_sigmoid (t : FloatTensor) : FloatTensor :=
  Torch.tmap (fun v => f32_log (F32.div v (F32.sub F32.one v))) t.

(** [static_cast<long>(std::pow(max_sh_degree + 1, 2))]: the sum is taken
    in [int], the square in [double] (it is rounded once it exceeds 2^53),
    and the result is converted to [long]. *)
Definition sh_coeff_count (sh_degree : Z) : Z :=
  let base := int_wrap (sh_degree + 1) in
  F64.to_Z (F64.of_Z (base * base)).

(** The literals [0.0000001], [0.5], [0.0] and [1e-15]. *)
Definition dist2_floor : F32.t := F64.to_f32 (F64.decimal 1 7).
Definition one_half : F32.t := F64.to_f32 (F64.decimal 5 1).
Definition adam_base_lr : F64.t := F64.of_Z 0.
Definition adam_epsilon : F64.t := F64.decimal 1 15.

(** [GaussianModel::GaussianModel(int sh_degree)] (lines 3-43). *)
Definition GaussianModel_ctor (sh_degree : Z) : res GaussianModel :=
  let this :=
    mkGaussianModel
      sh_degree 0
      (mkExpon_lr_func (F64.of_Z 0) (F64.of_Z 1)
                       default_lr_delay_mult default_max_steps)
      Torch.empty0 Torch.empty0 Torch.empty0 Torch.empty0
      Torch.empty0 Torch.empty0 Torch.empty0 Torch.empty0
      None None [] None None in
  let body : Exec GaussianModel unit :=
    (m <~ exec_get ;; register_parameter "xyz" (_xyz m) ;;;
     m <~ exec_get ;; register_parameter "features_dc" (_features_dc m) ;;;
     m <~ exec_get ;; register_parameter "features_rest" (_features_rest m) ;;;
     m <~ exec_get ;; register_parameter "scaling" (_scaling m) ;;;
     m <~ exec_get ;; register_parameter "rotation" (_rotation m) ;;;
     m <~ exec_get ;; register_parameter "opacity" (_opacity m))%exec in
  match body this with
  | (m, Ok _) => Ok m
  | (_, Raise e) => Raise e
  end.

(** [build_scaling_rotation] and [strip_symmetric], which the covariance
    activation calls, are defined outside the sources at hand; each returns
    a tensor or throws. *)
Variable build_scaling_rotation : FloatTensor -> FloatTensor -> res FloatTensor.
Variable strip_symmetric : FloatTensor -> res FloatTensor.

(** The covariance activation the constructor binds (lines 30-35). *)
Definition covariance_activation
    (scaling scaling_modifier rotation : FloatTensor) : res FloatTensor :=
  L <-- (scaled <-- Torch.mul scaling_modifier scaling ;;
         build_scaling_rotation scaled rotation) ;;
  actual_covariance <-- (Lt <-- Torch.transpose L 1 2 ;; Torch.mm L Lt) ;;
  symm <-- strip_symmetric actual_covariance ;;
  Ok symm.

(** [GaussianModel::get_features() const] (lines 52-56). *)
Definition get_features (m : GaussianModel) : res FloatTensor :=
  let features_dc := _features_dc m in
  let features_rest := _features_rest m in
  Torch.cat [features_dc; features_rest] 1.

(** [GaussianModel::oneupSHdegree()] (lines 63-67). *)
Definition oneupSHdegree : Exec GaussianModel unit :=
  fun m =>
    if active_sh_degree m <? max_sh_degree m
    then (set_active_sh_degree (int_wrap (active_sh_degree m + 1)) m, Ok tt)
    else (m, Ok tt).

(** [GaussianModel::create_from_pcd(PointCloud&, float)] (lines 79-105);
    the line written to [std::cout] at line 89 is not recorded. *)
Definition create_from_pcd (pcd : PointCloud) (spatial_lr_scale : F32.t)
  : Exec GaussianModel unit :=
  (exec_modify (set_spatial_lr_scale (Some spatial_lr_scale)) ;;;
   (* 82-83 *)
   fused_point_cloud <~ exec_lift
     (Torch.from_blob (points_data pcd) [Z.of_nat (length (_points pcd))]) ;;
   colors <~ exec_lift
     (Torch.from_blob (colors_data pcd) [Z.of_nat (length (_colors pcd))]) ;;
   let fused_color := RGB2SH colors in
   (* 85-87 *)
   this <~ exec_get ;;
   n_color <~ exec_lift (Torch.size fused_color 0) ;;
   features <~ exec_lift
     (Torch.zeros [n_color; 3; sh_coeff_count (max_sh_degree this)]) ;;
   features <~ exec_lift
     (Torch.index_put_ features
        [Torch.Slice_; Torch.Slice2 0 3; Torch.Int 0] fused_color) ;;
   features <~ exec_lift
     (Torch.index_put_scalar features
        [Torch.Slice_; Torch.Slice1 3; Torch.Slice1 1] F32.zero) ;;
   (* 89 *)
   _ <~ exec_lift (Torch.size fused_point_cloud 0) ;;
   (* 91-92 *)
   points <~ exec_lift
     (Torch.from_blob (points_data pcd) [Z.of_nat (length (_points pcd))]) ;;
   dist <~ exec_lift (distCUDA2 points) ;;
   let dist2 := Torch.clamp_min dist dist2_floor in
   scales <~ exec_lift
     (u <-- Torch.unsqueeze
              (Torch.tmap f32_log (Torch.tmap F32.sqrt dist2)) (-1) ;;
      Torch.repeat u [1; 3]) ;;
   (* 93-94 *)
   n_point <~ exec_lift (Torch.size fused_point_cloud 0) ;;
   rots <~ exec_lift (Torch.zeros [n_point; 4]) ;;
   rots <~ exec_lift
     (Torch.index_put_scalar rots [Torch.Slice_; Torch.Int 0] F32.one) ;;
   (* 96 *)
   n_point <~ exec_lift (Torch.size fused_point_cloud 0) ;;
   ones <~ exec_lift (Torch.ones [n_point; 1]) ;;
   let opacities := inverse_sigmoid (Torch.tmap (F32.mul one_half) ones) in
   (* 98 *)
   exec_modify (set_xyz fused_point_cloud) ;;;
   (* 99 *)
   features_dc <~ exec_lift
     (f <-- Torch.index features
              [Torch.Slice_; Torch.Slice_; Torch.Int 0] ;;
      Torch.transpose f 1 2) ;;
   exec_modify (set_features_dc features_dc) ;;;
   (* 100 *)
   features_rest <~ exec_lift
     (f <-- Torch.index features
              [Torch.Slice_; Torch.Slice_; Torch.Slice1 1] ;;
      Torch.transpose f 1 2) ;;
   exec_modify (set_features_rest features_rest) ;;;
   (* 101-103 *)
   exec_modify (set_scaling scales) ;;;
   exec_modify (set_rotation rots) ;;;
   exec_modify (set_opacity opacities) ;;;
   (* 104 *)
   this <~ exec_get ;;
   n_xyz <~ exec_lift (Torch.size (_xyz this) 0) ;;
   max_radii2D <~ exec_lift (Torch.zeros [n_xyz]) ;;
   exec_modify (set_max_radii2D max_radii2D))%exec.

(** [GaussianModel::training_setup(const OptimizationParameters&)]
    (lines 115-126). *)
Definition training_setup (params : OptimizationParameters)
  : Exec GaussianModel unit :=
  (exec_modify (set_percent_dense (Some (params_percent_dense params))) ;;;
   (* 117 *)
   this <~ exec_get ;;
   n <~ exec_lift (Torch.size (_xyz this) 0) ;;
   accum <~ exec_lift (Torch.zeros [n; 1]) ;;
   exec_modify (set_xyz_gradient_accum accum) ;;;
   (* 118 *)
   this <~ exec_get ;;
   n <~ exec_lift (Torch.size (_xyz this) 0) ;;
   denom <~ exec_lift (Torch.zeros [n; 1]) ;;
   exec_modify (set_denom (Some denom)) ;;;
   (* 120 *)
   this <~ exec_get ;;
   register_parameter "xyz" (_xyz this) ;;;
   (* 121 *)
   this <~ exec_get ;;
   exec_modify
     (set_optimizer
        (Some (mkAdam (parameters this) adam_base_lr adam_epsilon))) ;;;
   (* 122-125 *)
   this <~ exec_get ;;
   scale <~ exec_lift
     (match _spatial_lr_scale this with
      | Some s => Ok s
      | None => Raise (UninitializedRead "_spatial_lr_scale")
      end) ;;
   exec_modify
     (set_xyz_scheduler_args
        (mkExpon_lr_func
           (F32.mul (position_lr_init params) scale)
           (F32.mul (position_lr_final params) scale)
           (position_lr_delay_mult params)
           (position_lr_max_steps params))))%exec.


(** ** Camera ([src/camera.cu]) *)

(** [Eigen::Vector3f] and [Eigen::Matrix3f] (three columns). *)
Record Vector3f : Type := mkVector3f { v0 : F32.t; v1 : F32.t; v2 : F32.t }.
Record Matrix3f : Type := mkMatrix3f {
  col0 : Vector3f; col1 : Vector3f; col2 : Vector3f
}.
Definition Vector3f_Zero : Vector3f := mkVector3f F32.zero F32.zero F32.zero.

(** The members the constructor initialises.  Modelled from the spec: the
    class is declared outside the sources at hand; [_image_width] and
    [_image_height] are integers, taken here to hold any tensor extent. *)
Record Camera : Type := mkCamera {
  _colmap_id : Z;
  _R : Matrix3f;
  _T : Vector3f;
  _FoVx : F32.t;
  _FoVy : F32.t;
  _image_name : string;
  _uid : Z;
  _scale : F32.t;
  _original_image : FloatTensor;
  _image_width : Z;
  _image_height : Z;
  _zfar : F32.t;
  _znear : F32.t;
  _world_view_transform : FloatTensor;
  _projection_matrix : FloatTensor;
  _full_proj_transform : FloatTensor;
  _camera_center : FloatTensor
}.

(** Modelled from the spec: [CameraInfo] is declared outside the sources at
    hand; these are the members [loadCam] reads.  [_img_data] is a pointer
    to the decoded image: an address of the heap, or null. *)
Record CameraInfo : Type := mkCameraInfo {
  _camera_ID : Z;
  ci_R : Matrix3f;
  ci_T : Vector3f;
  _fov_x : F32.t;
  _fov_y : F32.t;
  ci_image_name : string;
  _img_w : Z;
  _img_h : Z;
  _channels : Z;
  _img_data : option nat
}.

Definition set_img_data (p : option nat) (ci : CameraInfo) : CameraInfo :=
  mkCameraInfo (_camera_ID ci) (ci_R ci) (ci_T ci) (_fov_x ci) (_fov_y ci)
               (ci_image_name ci) (_img_w ci) (_img_h ci) (_channels ci) p.

(** The image buffers that are allocated, by address. *)
Abbreviation Heap := (gmap nat (list Byte.byte)).

(** What [loadCam] runs on: the caller's record and the heap. *)
Record World : Type := mkWorld { cam_info : CameraInfo; heap : Heap }.

(** The literals [0.f], [1.f], [100.f], [0.01f] and [255.f]. *)
Definition f32_100 : F32.t := F32.of_Z 100.
Definition f32_0_01 : F32.t := F32.div (F32.of_Z 1) (F32.of_Z 100).
Definition f32_255 : F32.t := F32.of_Z 255.

(** Modelled from the spec: the [scale] argument of the constructor
    defaults to 1. *)
Definition Camera_default_scale : F32.t := F32.one.

(** Modelled from the spec: [getWorld2View2] and [getProjectionMatrix] are
    defined outside the sources at hand and give 4x4 matrices; the variables
    are their entries, by row and column. *)
Variable world2view_entry :
  Matrix3f -> Vector3f -> Vector3f -> F32.t -> nat -> nat -> F32.t.
Variable projection_entry :
  F32.t -> F32.t -> F32.t -> F32.t -> nat -> nat -> F32.t.

(** [Tensor::inverse] on a square matrix: the entries of the inverse, or
    nothing when libtorch reports the matrix as singular. *)
Variable inverse_entries : FloatTensor -> option (nat -> nat -> F32.t).

(** [gs::param::ModelParameters], which [loadCam] receives and does not
    read. *)
Variable ModelParameters : Type.

Definition matrix_of_entries (n m : nat) (e : nat -> nat -> F32.t)
  : FloatTensor :=
  Torch.mkTensor [n; m]
    (Torch.tabulate [n; m] (fun idx => e (idx !!! 0%nat) (idx !!! 1%nat))).

Definition getWorld2View2 (R : Matrix3f) (T : Vector3f)
    (translate : Vector3f) (scale : F32.t) : FloatTensor :=
  matrix_of_entries 4 4 (world2view_entry R T translate scale).

Definition getProjectionMatrix (znear zfar fovX fovY : F32.t)
  : FloatTensor :=
  matrix_of_entries 4 4 (projection_entry znear zfar fovX fovY).

Definition inverse (t : FloatTensor) : res FloatTensor :=
  match Torch.sizes t with
  | [n; m] =>
      check (n =? m)%nat else NotSquare (Torch.sizes t) ;;
      match inverse_entries t with
      | Some e => Ok (matrix_of_entries n n e)
      | None => Raise SingularMatrix
      end
  | _ => Raise (NotSquare (Torch.sizes t))
  end.

(** [world_view_transform.unsqueeze(0).bmm(projection_matrix.unsqueeze(0))
    .squeeze(0)] (line 34). *)
Definition full_proj_transform_of (world_view projection : FloatTensor)
  : res FloatTensor :=
  a <-- Torch.unsqueeze world_view 0 ;;
  b <-- Torch.unsqueeze projection 0 ;;
  c <-- Torch.bmm a b ;;
  Torch.squeeze c 0.

(** [Camera::Camera(...)] (lines 9-36). *)
Definition Camera_ctor (imported_colmap_id : Z) (R : Matrix3f)
    (T : Vector3f) (FoVx FoVy : F32.t) (image : FloatTensor)
    (image_name : string) (uid : Z) (scale : F32.t) : res Camera :=
  (* 24-26 *)
  let original_image := Torch.clamp image F32.zero F32.one in
  image_width <-- Torch.size original_image 2 ;;
  image_height <-- Torch.size original_image 1 ;;
  (* 28-29 *)
  let zfar := f32_100 in
  let znear := f32_0_01 in
  (* 31-35 *)
  let world_view_transform := getWorld2View2 R T Vector3f_Zero scale in
  let projection_matrix := getProjectionMatrix znear zfar FoVx FoVy in
  full_proj_transform <--
    full_proj_transform_of world_view_transform projection_matrix ;;
  camera_center <--
    (inv <-- inverse world_view_transform ;;
     row <-- Torch.select inv 0 3 ;;
     Torch.slice row 0 0 3) ;;
  Ok (mkCamera imported_colmap_id R T FoVx FoVy image_name uid scale
        original_image image_width image_height zfar znear
        world_view_transform projection_matrix full_proj_transform
        camera_center).

(** [free_image]: releases a buffer of the heap; releasing null does
    nothing, releasing anything else has no defined behaviour. *)
Definition free_image (p : option nat) : Exec World unit :=
  fun w =>
    match p with
    | None => (w, Ok tt)
    | Some a =>
        match heap w !! a with
        | Some _ => (mkWorld (cam_info w) (delete a (heap w)), Ok tt)
        | None => (w, Raise InvalidFree)
        end
    end.

(** The bytes a pointer gives access to. *)
Definition pointee (w : World) (p : option nat) : list Byte.byte :=
  default [] (a ← p; heap w !! a).

(** [loadCam(params, id, cam_info)] (lines 39-52). *)
Definition loadCam (params : ModelParameters) (id : Z) : Exec World Camera :=
  (w <~ exec_get ;;
   let ci := cam_info w in
   (* 41-45 *)
   original_image_tensor <~ exec_lift
     (Torch.from_blob_strided (pointee w (_img_data ci))
        [_img_h ci; _img_w ci; _channels ci]
        [_img_w ci * _channels ci; _channels ci; 1]) ;;
   original_image_tensor <~ exec_lift
     (p <-- Torch.permute (Torch.tmap F32.of_byte original_image_tensor)
              [2; 0; 1] ;;
      Ok (Torch.tmap (fun v => F32.div v f32_255) p)) ;;
   (* 47-48 *)
   free_image (_img_data ci) ;;;
   exec_modify (fun w => mkWorld (set_img_data None (cam_info w)) (heap w)) ;;;
   (* 50-51 *)
   w <~ exec_get ;;
   let ci := cam_info w in
   exec_lift
     (Camera_ctor (_camera_ID ci) (ci_R ci) (ci_T ci) (_fov_x ci) (_fov_y ci)
        original_image_tensor (ci_image_name ci) id Camera_default_scale)
  )%exec.


(** The plain product of two matrices, as the spec words the full
    projection transform: entry [(i, j)] is the inner product of row [i] of
    the first and column [j] of the second. *)
Definition matrix_product (a b : FloatTensor) : res FloatTensor :=
  match Torch.sizes a, Torch.sizes b with
  | [n; m], [m'; p] =>
      check (m =? m')%nat else MmShape (Torch.sizes a) (Torch.sizes b) ;;
      Ok (Torch.mkTensor [n; p]
            (Torch.tabulate [n; p] (fun idx =>
               let i := idx !!! 0%nat in
               let j := idx !!! 1%nat in
               Torch.dot m (fun l => Torch.get a [i; l])
                           (fun l => Torch.get b [l; j]))))
  | _, _ => Raise (MmShape (Torch.sizes a) (Torch.sizes b))
  end.

(** [n] calls of a member function in a row; a throw ends the run. *)
Fixpoint repeat_call {St} (n : nat) (f : Exec St unit) : Exec St unit :=
  match n with
  | O => exec_ret tt
  | S n' => (f ;;; repeat_call n' f)%exec
  end.

(** In-range multi-indices of a shape. *)
Definition in_range (s idx : list nat) : Prop := Forall2 lt idx s.

(** The address of pixel [(i, j)], channel [k], in a decoded image of
    width [w] with [c] channels. *)
Definition pixel_address (w c : nat) (idx : list nat) : Z :=
  foldr Z.add 0
    (zip_with (fun i st => Z.of_nat i * st) idx
       [Z.of_nat w * Z.of_nat c; Z.of_nat c; 1]).

(** The decoded image as a height x width x channels tensor of bytes, and
    the tensor lines 41-45 make of it. *)
Definition decoded_image (h w c : nat) (buf : list Byte.byte)
  : Torch.Tensor Byte.byte :=
  Torch.mkTensor [h; w; c]
    (map (fun a => buf !!! Z.to_nat a)
         (Torch.tabulate [h; w; c] (pixel_address w c))).

Definition normalized_image (h w c : nat) (buf : list Byte.byte)
  : FloatTensor :=
  Torch.tmap (fun v => F32.div v f32_255)
    (Torch.materialize (Torch.tmap F32.of_byte (decoded_image h w c buf))
       (Torch.view_permute (Torch.view_id [h; w; c]) [2; 0; 1]%nat)).

(** Inputs used to exercise the statements below: the end-to-end scenario
    of the spec (one white point at the origin), a cloud of two points, the
    empty cloud, and a camera record with a 4 x 4 x 3 image of bytes 255 at
    address 5. *)
Definition origin : Point := mkPoint F32.zero F32.zero F32.zero.
Definition white : Color := mkColor F32.one F32.one F32.one.
Definition one_point_cloud : PointCloud := mkPointCloud [origin] [white].
Definition two_point_cloud : PointCloud :=
  mkPointCloud [origin; origin] [white; white].
Definition empty_cloud : PointCloud := mkPointCloud [] [].

Definition identity_entry (i j : nat) : F32.t :=
  if (i =? j)%nat then F32.one else F32.zero.
Definition zero_rotation : Matrix3f :=
  mkMatrix3f Vector3f_Zero Vector3f_Zero Vector3f_Zero.
Definition white_image_info : CameraInfo :=
  mkCameraInfo 7 zero_rotation Vector3f_Zero F32.one F32.one "white"
    4 4 3 (Some 5%nat).
Definition white_image_heap : Heap :=
  <[5%nat := replicate 48 Byte.xff]> ∅.

(** Further inputs: the model the constructor gives for degree 3 (its
    schedule with delay multiplier 1 over 1000000 steps); that model with
    coefficient tensors for two points, with coefficient tensors that
    disagree on the number of points, and with a 2-dimensional
    [_features_dc]; a cloud of three points, and one of
    two points with a single color; a configuration; a 1 x 1 x 3 image with one value below 0 and one above
    1; a heap whose buffer at address 5 is one byte short of 4 x 4 x 3; a
    camera record with a 1 x 1 image of two channels; a model whose
    [_features_dc] alone has been assigned. *)
Definition constructed_model : GaussianModel :=
  mkGaussianModel 3 0
    (mkExpon_lr_func (F64.of_Z 0) (F64.of_Z 1) (F64.of_Z 1) 1000000)
    Torch.empty0 Torch.empty0 Torch.empty0 Torch.empty0
    Torch.empty0 Torch.empty0 Torch.empty0 Torch.empty0
    None None
    (map (fun name => (name, Torch.empty0))
       ["xyz"; "features_dc"; "features_rest"; "scaling"; "rotation";
        "opacity"]%string)
    None None.
Definition two_point_model : GaussianModel :=
  set_features_dc (Torch.mkTensor [2; 1; 3]%nat (replicate 6 F32.one))
    (set_features_rest (Torch.mkTensor [2; 3; 3]%nat (replicate 18 F32.zero))
       constructed_model).
Definition lopsided_model : GaussianModel :=
  set_features_dc (Torch.mkTensor [2; 1; 3]%nat (replicate 6 F32.one))
    (set_features_rest (Torch.mkTensor [1; 3; 3]%nat (replicate 9 F32.zero))
       constructed_model).
Definition flattened_dc_model : GaussianModel :=
  set_features_dc (Torch.mkTensor [2; 3]%nat (replicate 6 F32.one))
    (set_features_rest (Torch.mkTensor [2; 3; 3]%nat (replicate 18 F32.zero))
       constructed_model).
Definition three_point_cloud : PointCloud :=
  mkPointCloud
    [mkPoint (F32.of_Z 1) (F32.of_Z 2) (F32.of_Z 3);
     mkPoint (F32.of_Z 4) (F32.of_Z 5) (F32.of_Z 6);
     mkPoint (F32.of_Z 7) (F32.of_Z 8) (F32.of_Z 9)]
    [white; white; white].
Definition example_params : OptimizationParameters :=
  mkOptimizationParameters (F32.of_Z 1) (F32.of_Z 1) (F32.of_Z 1)
    (F32.of_Z 1) 30000.
Definition unclamped_image : FloatTensor :=
  Torch.mkTensor [1; 1; 3]%nat [F32.of_Z (-1); one_half; F32.of_Z 2].
Definition short_image_heap : Heap :=
  <[5%nat := replicate 47 Byte.xff]> ∅.
Definition two_byte_image_info : CameraInfo :=
  mkCameraInfo 8 zero_rotation Vector3f_Zero F32.one F32.one "two bytes"
    1 1 2 (Some 5%nat).
Definition two_byte_image_heap : Heap :=
  <[5%nat := [Byte.x10; Byte.x20]]> ∅.

(** * Properties *)

(** ** Tensors *)

Section TorchFacts.
Import Torch.

Lemma length_tabulate {A} (s : list nat) (f : list nat -> A) :
  length (tabulate s f) = numel s.
Proof.
  revert f. induction s as [|n s IH]; intros f; [reflexivity|].
  cbn [tabulate numel foldr].
  generalize 0%nat at 1 as from. induction n as [|n IHn]; intros from.
  - reflexivity.
  - cbn [seq map mjoin list_join]. rewrite length_app, IH.
    change (list_join ?l) with (mjoin l). rewrite IHn. reflexivity.
Qed.

Lemma offset_lt (s idx : list nat) :
  in_range s idx -> (offset s idx < numel s)%nat.
Proof.
  intros H. induction H as [|i n idx s Hin _ IH]; cbn [offset numel foldr].
  - lia.
  - change (foldr Nat.mul 1%nat s) with (numel s) in *. nia.
Qed.

Lemma lookup_mjoin_block {A} (blocks : list (list A)) (w i k : nat) :
  Forall (fun b => length b = w) blocks ->
  (k < w)%nat ->
  mjoin blocks !! (i * w + k)%nat = (blocks !! i) ≫= (fun b => b !! k).
Proof.
  intros Hall Hk. revert i. induction Hall as [|b blocks Hb _ IH]; intros i.
  - reflexivity.
  - cbn [mjoin list_join]. change (list_join ?l) with (mjoin l).
    destruct i as [|i].
    + cbn. rewrite lookup_app_l by lia. reflexivity.
    + rewrite lookup_app_r by (cbn; nia).
      replace (S i * w + k - length b)%nat with (i * w + k)%nat by (cbn; nia).
      rewrite IH. reflexivity.
Qed.

Lemma lookup_tabulate {A} (s idx : list nat) (f : list nat -> A) :
  in_range s idx -> tabulate s f !! offset s idx = Some (f idx).
Proof.
  intros H. revert f.
  induction H as [|i n idx s Hin Hrest IH]; intros f; [reflexivity|].
  cbn [tabulate offset].
  rewrite (lookup_mjoin_block _ (numel s)).
  - rewrite list_lookup_fmap, lookup_seq_lt by lia. cbn. apply IH.
  - apply Forall_forall. intros b Hb.
    apply list_elem_of_fmap in Hb as (j & -> & _). apply length_tabulate.
  - apply offset_lt. assumption.
Qed.

Lemma Forall_tabulate {A} (P : A -> Prop) (s : list nat)
    (f : list nat -> A) :
  (forall idx, in_range s idx -> P (f idx)) -> Forall P (tabulate s f).
Proof.
  revert f. induction s as [|n s IH]; intros f Hf.
  - cbn. constructor; [apply Hf; constructor|constructor].
  - cbn [tabulate]. apply Forall_forall. intros a Ha.
    apply list_elem_of_join in Ha as (b & Ha & Hb).
    apply list_elem_of_fmap in Hb as (i & -> & Hi).
    apply elem_of_seq in Hi.
    revert a Ha. apply Forall_forall, IH. intros idx Hidx.
    apply Hf. constructor; [lia|assumption].
Qed.

Lemma get_materialize {A} `{Inhabited A} (t : Tensor A) (v : View)
    (idx : list nat) :
  in_range (vsizes v) idx ->
  get (materialize t v) idx = get t (vmap v idx).
Proof.
  intros Hidx. unfold get at 1, materialize. cbn [sizes data].
  apply list_lookup_total_correct.
  exact (lookup_tabulate (vsizes v) idx (fun i => get t (vmap v i)) Hidx).
Qed.

Lemma get_tmap {A B} `{Inhabited A} `{Inhabited B} (f : A -> B)
    (t : Torch.Tensor A) (idx : list nat) :
  (Torch.offset (Torch.sizes t) idx < length (Torch.data t))%nat ->
  Torch.get (Torch.tmap f t) idx = f (Torch.get t idx).
Proof.
  intros Hlt. unfold Torch.get, Torch.tmap. cbn [Torch.sizes Torch.data].
  apply list_lookup_total_fmap. assumption.
Qed.

Lemma maybe_wrap_dim_nonneg (k ndim : nat) :
  (k < ndim)%nat -> maybe_wrap_dim (Z.of_nat k) ndim = Ok k.
Proof.
  intros Hk. unfold maybe_wrap_dim.
  replace (Z.max 1 (Z.of_nat ndim)) with (Z.of_nat ndim) by lia.
  destruct (Z.leb_spec (- Z.of_nat ndim) (Z.of_nat k)); [|lia].
  destruct (Z.ltb_spec (Z.of_nat k) (Z.of_nat ndim)); [|lia].
  destruct (Z.ltb_spec (Z.of_nat k) 0); [lia|].
  cbn. rewrite Nat2Z.id. reflexivity.
Qed.

Lemma size_nonneg {A} (t : Tensor A) (k : nat) :
  (k < dim t)%nat ->
  size t (Z.of_nat k) = Ok (Z.of_nat (sizes t !!! k)).
Proof.
  intros Hk. unfold size, dim in *.
  destruct (sizes t) as [|n s] eqn:E; [cbn in Hk; lia|].
  rewrite maybe_wrap_dim_nonneg by assumption. reflexivity.
Qed.

Lemma shape_of_cons_nat (n : nat) (zs : list Z) :
  shape_of (Z.of_nat n :: zs) = (s <-- shape_of zs ;; Ok (n :: s)).
Proof.
  cbn [shape_of]. destruct (Z.leb_spec 0 (Z.of_nat n)); [|lia].
  rewrite Nat2Z.id. reflexivity.
Qed.

Lemma zeros_nat (s : list nat) :
  Torch.zeros (map Z.of_nat s) =
    Ok (Torch.mkTensor s (replicate (Torch.numel s) F32.zero)).
Proof.
  unfold Torch.zeros, Torch.full.
  assert (H : Torch.shape_of (map Z.of_nat s) = Ok s).
  { induction s as [|n s IH]; [reflexivity|].
    cbn [map]. rewrite shape_of_cons_nat, IH. reflexivity. }
  rewrite H. reflexivity.
Qed.

Lemma ones_nat (s : list nat) :
  Torch.ones (map Z.of_nat s) =
    Ok (Torch.mkTensor s (replicate (Torch.numel s) F32.one)).
Proof.
  unfold Torch.ones, Torch.full.
  assert (H : Torch.shape_of (map Z.of_nat s) = Ok s).
  { induction s as [|n s IH]; [reflexivity|].
    cbn [map]. rewrite shape_of_cons_nat, IH. reflexivity. }
  rewrite H. reflexivity.
Qed.

Lemma from_blob_prefix {A} (mem : list A) (n : nat) :
  (n <= length mem)%nat ->
  Torch.from_blob mem [Z.of_nat n] = Ok (Torch.mkTensor [n] (take n mem)).
Proof.
  intros Hn. unfold Torch.from_blob. rewrite shape_of_cons_nat. cbn.
  rewrite Nat.mul_1_r. destruct (Nat.leb_spec n (length mem)); [|lia].
  reflexivity.
Qed.

Lemma clamp_slice_full (n : nat) : Torch.clamp_slice n None None = (0%nat, n).
Proof.
  unfold Torch.clamp_slice. cbn.
  destruct (Z.leb_spec (Z.of_nat n) 0); f_equal; lia.
Qed.

(** Slices alone never fail. *)
Lemma apply_slicing_slices (ndim : nat) (idxs : list Torch.TensorIndex) :
  Forall (fun ix => exists a b, ix = Torch.Slice a b) idxs ->
  forall (v : Torch.View) (k : nat),
    (k + length idxs <= length (Torch.vsizes v))%nat ->
    exists v',
      Torch.apply_slicing ndim v k idxs = Ok v'
      /\ length (Torch.vsizes v') = length (Torch.vsizes v).
Proof.
  induction 1 as [|ix idxs (a & b & ->) _ IH]; intros v k Hk.
  - exists v. split; reflexivity.
  - cbn [length] in Hk. cbn [Torch.apply_slicing].
    destruct (lookup_lt_is_Some_2 (Torch.vsizes v) k) as [n ->]; [lia|].
    destruct (Torch.clamp_slice n a b) as [x len].
    destruct (IH (Torch.view_slice v k x len) (S k)) as (v' & Hv' & Hlen).
    + cbn [Torch.view_slice Torch.vsizes]. rewrite length_insert. lia.
    + exists v'. split; [exact Hv'|].
      rewrite Hlen. cbn [Torch.view_slice Torch.vsizes].
      apply length_insert.
Qed.

Lemma index_put_scalar_slices {A} (t : Torch.Tensor A)
    (idxs : list Torch.TensorIndex) (v : A) :
  Forall (fun ix => exists a b, ix = Torch.Slice a b) idxs ->
  (0 < length idxs <= Torch.dim t)%nat ->
  exists t',
    Torch.index_put_scalar t idxs v = Ok t'
    /\ Torch.sizes t' = Torch.sizes t.
Proof.
  intros Hall Hlen. unfold Torch.index_put_scalar, Torch.index_view.
  destruct (Nat.ltb_spec 0 (length idxs)); [|lia].
  destruct (Nat.leb_spec (length idxs) (Torch.dim t)); [|lia].
  destruct (apply_slicing_slices (Torch.dim t) idxs Hall
              (Torch.view_id (Torch.sizes t)) 0) as (w & -> & _).
  - cbn. unfold Torch.dim in *. lia.
  - eexists. split; reflexivity.
Qed.

(** Two slices and the integer 0 on a tensor whose last extent is
    positive: the view has the first two extents. *)
Lemma index_view_slice_slice_0 {A} (t : Torch.Tensor A) (n1 n2 n3 : nat)
    (a b : option Z) :
  Torch.sizes t = [n1; n2; n3] ->
  (0 < n3)%nat ->
  exists v,
    Torch.index_view t
      [Torch.Slice None None; Torch.Slice a b; Torch.Int 0] = Ok v
    /\ Torch.vsizes v = [n1; (Torch.clamp_slice n2 a b).2].
Proof.
  intros Hs Hn. unfold Torch.index_view, Torch.dim. rewrite Hs.
  cbn [length Nat.ltb Nat.leb Torch.apply_slicing Torch.view_id
       Torch.vsizes lookup list_lookup Torch.Slice_].
  rewrite clamp_slice_full.
  cbn -[Torch.clamp_slice Z.of_nat].
  destruct (Torch.clamp_slice n2 a b) as [x len].
  cbn -[Z.of_nat].
  destruct (Z.leb_spec (- Z.of_nat n3) 0); [|lia].
  destruct (Z.ltb_spec 0 (Z.of_nat n3)); [|lia].
  cbn. eexists. split; reflexivity.
Qed.

(** Line 86 on 1 or 3 colors: the colors broadcast into the view. *)
Lemma index_put_colors (t c : FloatTensor) (M n3 : nat) :
  Torch.sizes t = [M; 3%nat; n3] ->
  (0 < n3)%nat ->
  Torch.sizes c = [M] ->
  M = 1%nat \/ M = 3%nat ->
  exists t',
    Torch.index_put_ t [Torch.Slice_; Torch.Slice2 0 3; Torch.Int 0] c
      = Ok t'
    /\ Torch.sizes t' = Torch.sizes t.
Proof.
  intros Ht Hn Hc HM. unfold Torch.index_put_, Torch.Slice2, Torch.Slice_.
  destruct (index_view_slice_slice_0 t M 3 n3 (Some 0) (Some 3) Ht Hn)
    as (v & -> & Hv).
  cbn [res_bind]. unfold Torch.copy_to. rewrite Hv, Hc.
  destruct HM as [-> | ->]; cbn; eexists; split; reflexivity.
Qed.

(** Line 86 on any other number of colors: they do not broadcast. *)
Lemma index_put_colors_mismatch (t c : FloatTensor) (M n3 : nat) :
  Torch.sizes t = [M; 3%nat; n3] ->
  (0 < n3)%nat ->
  Torch.sizes c = [M] ->
  M <> 1%nat -> M <> 3%nat ->
  Torch.index_put_ t [Torch.Slice_; Torch.Slice2 0 3; Torch.Int 0] c
    = Raise (ExpandMismatch [M] [M; 3%nat]).
Proof.
  intros Ht Hn Hc H1 H3. unfold Torch.index_put_, Torch.Slice2, Torch.Slice_.
  destruct (index_view_slice_slice_0 t M 3 n3 (Some 0) (Some 3) Ht Hn)
    as (v & -> & Hv).
  cbn [res_bind]. unfold Torch.copy_to. rewrite Hv, Hc.
  change (Torch.clamp_slice 3 (Some 0) (Some 3)).2 with 3%nat.
  rewrite bool_decide_eq_false_2 by discriminate.
  assert (Hss : Torch.slicePrefix1sSize [M] = [M])
    by (destruct M as [|[|M']]; [reflexivity|congruence|reflexivity]).
  rewrite Hss. unfold Torch.expandable.
  cbn [length Nat.leb Nat.sub drop zip zip_with forallb fst snd andb].
  destruct (Nat.eqb_spec M 3); [congruence|].
  destruct (Nat.eqb_spec M 1); [congruence|].
  reflexivity.
Qed.

(** Lines 93-94: column 0 of an N x 4 tensor is written. *)
Lemma index_put_scalar_column_0 {A} (t : Torch.Tensor A) (n k : nat)
    (v : A) :
  Torch.sizes t = [n; S k] ->
  exists t',
    Torch.index_put_scalar t [Torch.Slice_; Torch.Int 0] v = Ok t'
    /\ Torch.sizes t' = Torch.sizes t.
Proof.
  intros Ht. unfold Torch.index_put_scalar, Torch.index_view, Torch.dim.
  rewrite Ht.
  cbn [length Nat.ltb Nat.leb Torch.apply_slicing Torch.view_id
       Torch.vsizes lookup list_lookup Torch.Slice_].
  rewrite clamp_slice_full. cbn -[Z.of_nat].
  destruct (Z.leb_spec (- Z.of_nat (S k)) 0); [|lia].
  destruct (Z.ltb_spec 0 (Z.of_nat (S k))); [|lia].
  cbn. eexists. split; [reflexivity|]. cbn. congruence.
Qed.

(** Line 92: a vector of N values becomes N rows of 3 columns. *)
Lemma unsqueeze_repeat_3 (t : FloatTensor) (n : nat) :
  Torch.sizes t = [n] ->
  exists u,
    (u <-- Torch.unsqueeze t (-1) ;; Torch.repeat u [1; 3]) = Ok u
    /\ Torch.sizes u = [n; 3%nat].
Proof.
  intros Ht. unfold Torch.unsqueeze, Torch.dim. rewrite Ht.
  cbn [length Nat.add].
  change (Torch.maybe_wrap_dim (-1) 2) with (Ok (A := nat) 1%nat).
  cbn [res_bind take drop app]. unfold Torch.repeat, Torch.dim.
  cbn [Torch.sizes Torch.data length Nat.leb].
  change (Torch.shape_of [1; 3]) with (Ok (A := list nat) [1%nat; 3%nat]).
  cbn [res_bind length Nat.sub replicate app zip_with].
  eexists. split; [reflexivity|]. cbn. rewrite Nat.mul_1_r. reflexivity.
Qed.

(** [transpose(1, 2)] of a 2-dimensional tensor: dimension 2 is out of the
    range [-2, 1]. *)
Lemma transpose_1_2_of_2d {A} `{Inhabited A} (f : Tensor A) :
  dim f = 2%nat -> transpose f 1 2 = Raise (DimOutOfRange 2 2).
Proof.
  intros Hdim. unfold transpose. rewrite Hdim. reflexivity.
Qed.

End TorchFacts.

(** ** GaussianModel *)

Lemma int_wrap_id (v : Z) : - 2 ^ 31 <= v < 2 ^ 31 -> int_wrap v = v.
Proof. intros Hv. unfold int_wrap. rewrite Z.mod_small; lia. Qed.

Lemma length_points_data (pcd : PointCloud) :
  length (points_data pcd) = (3 * length (_points pcd))%nat.
Proof.
  unfold points_data. induction (_points pcd) as [|p l IH]; [reflexivity|].
  cbn in *. rewrite IH. lia.
Qed.

Lemma length_colors_data (pcd : PointCloud) :
  length (colors_data pcd) = (3 * length (_colors pcd))%nat.
Proof.
  unfold colors_data. induction (_colors pcd) as [|p l IH]; [reflexivity|].
  cbn in *. rewrite IH. lia.
Qed.

(** What the constructor builds. *)
Lemma GaussianModel_ctor_ok (D : Z) :
  exists m0,
    GaussianModel_ctor D = Ok m0
    /\ max_sh_degree m0 = D /\ active_sh_degree m0 = 0
    /\ _xyz m0 = Torch.empty0
    /\ _features_dc m0 = Torch.empty0 /\ _features_rest m0 = Torch.empty0
    /\ _scaling m0 = Torch.empty0 /\ _rotation m0 = Torch.empty0
    /\ _opacity m0 = Torch.empty0 /\ _max_radii2D m0 = Torch.empty0
    /\ optimizer m0 = None
    /\ map fst (parameters_ m0) =
         ["xyz"; "features_dc"; "features_rest"; "scaling"; "rotation";
          "opacity"]%string
    /\ _xyz_scheduler_args m0 =
         mkExpon_lr_func (F64.of_Z 0) (F64.of_Z 1)
           default_lr_delay_mult default_max_steps.
Proof.
  eexists. split; [vm_compute; reflexivity|]. cbn. repeat split; reflexivity.
Qed.

(** Within these bounds the number of coefficients is the exact square. *)
Lemma sh_coeff_count_exact (D : Z) :
  - 1024 <= D < 1024 -> sh_coeff_count D = (D + 1) ^ 2.
Proof.
  intros HD.
  assert (Hall : forallb
            (fun k => sh_coeff_count (Z.of_nat k - 1024)
                      =? (Z.of_nat k - 1024 + 1) ^ 2)
            (seq 0 2048) = true) by (vm_compute; reflexivity).
  rewrite forallb_forall in Hall.
  specialize (Hall (Z.to_nat (D + 1024))).
  rewrite Z2Nat.id in Hall by lia.
  replace (D + 1024 - 1024) with D in Hall by lia.
  apply Z.eqb_eq, Hall, in_seq. lia.
Qed.

Lemma sh_coeff_count_pos (D : Z) :
  - 1024 <= D < 1024 -> D <> -1 -> 0 < sh_coeff_count D.
Proof. intros HD Hne. rewrite sh_coeff_count_exact by exact HD. nia. Qed.

(** The number of coefficients is never negative, whatever the degree. *)
Lemma sh_coeff_count_nonneg (D : Z) : 0 <= sh_coeff_count D.
Proof.
  unfold sh_coeff_count. cbv zeta.
  assert (Hsq : 0 <= int_wrap (D + 1) * int_wrap (D + 1)) by nia.
  revert Hsq. generalize (int_wrap (D + 1) * int_wrap (D + 1)).
  intros n Hn. unfold F64.of_Z, binary_normalize.
  destruct n as [|p|p]; [cbn; lia| |lia].
  unfold binary_round. destruct (shl_align _ _ _) as [mz ez].
  unfold binary_round_aux.
  destruct (shr_fexp _ _ _ _ _) as [mrs' e'].
  destruct (shr_fexp _ _ _ _ _) as [mrs'' e''].
  destruct (shr_m mrs'') as [|q|q]; try (cbn; lia).
  destruct (e'' <=? _); [|cbn; lia].
  cbn [F64.to_Z cond_Zopp]. destruct (Z.leb_spec 0 e'').
  - apply Z.mul_nonneg_nonneg; [lia|]. apply Z.pow_nonneg. lia.
  - apply Z.div_pos; [lia|]. apply Z.pow_pos_nonneg; lia.
Qed.

(** Without a coefficient (as for [max_sh_degree = -1]) the integer index
    0 of line 86 is out of bounds. *)
Lemma create_from_pcd_raises_no_coefficient (pcd : PointCloud) (s : F32.t)
    (m : GaussianModel) :
  sh_coeff_count (max_sh_degree m) = 0 ->
  create_from_pcd pcd s m =
    (set_spatial_lr_scale (Some s) m, Raise (IndexOutOfBounds 0 2 0)).
Proof.
  intros HK.
  cbv beta iota zeta delta
    [create_from_pcd exec_bind exec_lift exec_modify exec_get].
  rewrite !from_blob_prefix
    by (rewrite ?length_points_data, ?length_colors_data; lia).
  cbv beta iota.
  rewrite !(size_nonneg _ 0) by (cbn; lia).
  cbn [RGB2SH Torch.tmap Torch.sizes lookup_total list_lookup_total
       res_bind max_sh_degree set_spatial_lr_scale].
  rewrite HK.
  change [Z.of_nat (length (_colors pcd)); 3; 0]
    with (map Z.of_nat [length (_colors pcd); 3%nat; 0%nat]).
  rewrite zeros_nat. cbv beta iota.
  unfold Torch.index_put_, Torch.index_view, Torch.dim.
  cbn [Torch.sizes length Nat.ltb Nat.leb Torch.apply_slicing
       Torch.view_id Torch.vsizes lookup list_lookup Torch.Slice_
       Torch.Slice2].
  rewrite clamp_slice_full. reflexivity.
Qed.

(** Line 86 on a cloud whose number of colors is neither 1 nor 3: the
    colors, a 1-dimensional tensor, do not broadcast into the M x 3 view. *)
Lemma create_from_pcd_raises_at_86 (pcd : PointCloud) (s : F32.t)
    (m : GaussianModel) :
  length (_colors pcd) <> 1%nat ->
  length (_colors pcd) <> 3%nat ->
  0 < sh_coeff_count (max_sh_degree m) ->
  create_from_pcd pcd s m =
    (set_spatial_lr_scale (Some s) m,
     Raise (ExpandMismatch [length (_colors pcd)]
              [length (_colors pcd); 3%nat])).
Proof.
  intros H1 H3 HK.
  cbv beta iota zeta delta
    [create_from_pcd exec_bind exec_lift exec_modify exec_get].
  rewrite !from_blob_prefix
    by (rewrite ?length_points_data, ?length_colors_data; lia).
  cbv beta iota.
  set (M := length (_colors pcd)) in *.
  rewrite !(size_nonneg _ 0) by (cbn; lia).
  cbn [RGB2SH Torch.tmap Torch.sizes lookup_total list_lookup_total
       res_bind max_sh_degree set_spatial_lr_scale].
  set (K := sh_coeff_count (max_sh_degree m)) in *.
  replace K with (Z.of_nat (Z.to_nat K)) by lia.
  change [Z.of_nat M; 3; Z.of_nat (Z.to_nat K)]
    with (map Z.of_nat [M; 3%nat; Z.to_nat K]).
  rewrite zeros_nat. cbv beta iota.
  rewrite (index_put_colors_mismatch _ _ M (Z.to_nat K));
    [reflexivity|reflexivity|lia|reflexivity|exact H1|exact H3].
Qed.

(** Line 99 on a cloud of 1 or 3 colors: everything up to line 98 goes
    through, [_xyz] is assigned, and the transposition throws. *)
Lemma create_from_pcd_raises_at_99 (pcd : PointCloud) (s : F32.t)
    (m : GaussianModel) :
  length (_colors pcd) = 1%nat \/ length (_colors pcd) = 3%nat ->
  0 < sh_coeff_count (max_sh_degree m) ->
  create_from_pcd pcd s m =
    (set_xyz (Torch.mkTensor [length (_points pcd)]
                (take (length (_points pcd)) (points_data pcd)))
             (set_spatial_lr_scale (Some s) m),
     Raise (DimOutOfRange 2 2)).
Proof.
  intros HM HK.
  cbv beta iota zeta delta
    [create_from_pcd exec_bind exec_lift exec_modify exec_get].
  rewrite !from_blob_prefix
    by (rewrite ?length_points_data, ?length_colors_data; lia).
  cbv beta iota.
  set (N := length (_points pcd)).
  set (M := length (_colors pcd)) in *.
  unfold distCUDA2.
  rewrite !(size_nonneg _ 0) by (cbn; lia).
  cbn [RGB2SH Torch.tmap Torch.sizes lookup_total list_lookup_total
       res_bind].
  cbv beta iota. rewrite Nat2Z.id.
  cbn [max_sh_degree set_spatial_lr_scale].
  set (K := sh_coeff_count (max_sh_degree m)) in *.
  replace K with (Z.of_nat (Z.to_nat K)) by lia.
  change [Z.of_nat M; 3; Z.of_nat (Z.to_nat K)]
    with (map Z.of_nat [M; 3%nat; Z.to_nat K]).
  rewrite zeros_nat. cbv beta iota.
  (* 86 *)
  edestruct (index_put_colors) as (f1 & -> & Hf1);
    [reflexivity|lia|reflexivity|exact HM|].
  (* 87 *)
  edestruct (index_put_scalar_slices f1
               [Torch.Slice_; Torch.Slice1 3; Torch.Slice1 1] F32.zero)
    as (f2 & -> & Hf2).
  { repeat constructor; do 2 eexists; reflexivity. }
  { unfold Torch.dim. rewrite Hf1. cbn. lia. }
  (* 91-92 *)
  edestruct (unsqueeze_repeat_3) as (scales & -> & _); [reflexivity|].
  (* 93-94 *)
  change [Z.of_nat N; 4] with (map Z.of_nat [N; 4%nat]).
  rewrite zeros_nat.
  destruct (index_put_scalar_column_0
              (Torch.mkTensor [N; 4%nat]
                 (replicate (Torch.numel [N; 4%nat]) F32.zero))
              N 3 F32.one) as (rots & -> & _); [reflexivity|].
  (* 96 *)
  change [Z.of_nat N; 1] with (map Z.of_nat [N; 1%nat]).
  rewrite ones_nat. cbv beta iota.
  (* 99 *)
  unfold Torch.index, Torch.Slice_.
  edestruct (index_view_slice_slice_0 f2 M 3 (Z.to_nat K) None None)
    as (v & -> & Hv); [rewrite Hf2, Hf1; reflexivity|lia|].
  cbn [res_bind]. rewrite transpose_1_2_of_2d; [reflexivity|].
  unfold Torch.dim. cbn [Torch.materialize Torch.sizes]. rewrite Hv.
  reflexivity.
Qed.

(** [create_from_pcd] never returns: whatever the model and the point
    cloud, one of the three cases above applies.  These members are left as
    they were. *)
Lemma create_from_pcd_keeps (pcd : PointCloud) (s : F32.t)
    (m : GaussianModel) :
  exists e m',
    create_from_pcd pcd s m = (m', Raise e)
    /\ _features_dc m' = _features_dc m
    /\ _features_rest m' = _features_rest m
    /\ _scaling m' = _scaling m
    /\ _rotation m' = _rotation m
    /\ _opacity m' = _opacity m
    /\ _max_radii2D m' = _max_radii2D m
    /\ parameters_ m' = parameters_ m
    /\ optimizer m' = optimizer m
    /\ _xyz_scheduler_args m' = _xyz_scheduler_args m
    /\ max_sh_degree m' = max_sh_degree m
    /\ active_sh_degree m' = active_sh_degree m
    /\ _spatial_lr_scale m' = Some s
    /\ (_xyz m' = _xyz m
        \/ _xyz m' = Torch.mkTensor [length (_points pcd)]
                       (take (length (_points pcd)) (points_data pcd))).
Proof.
  pose proof (sh_coeff_count_nonneg (max_sh_degree m)) as Hnonneg.
  destruct (decide (sh_coeff_count (max_sh_degree m) = 0)) as [HK|HK];
    [|assert (0 < sh_coeff_count (max_sh_degree m)) as HK' by lia;
      clear HK; rename HK' into HK].
  - rewrite (create_from_pcd_raises_no_coefficient pcd s m HK).
    do 2 eexists. split; [reflexivity|]. cbn. repeat split; auto.
  - destruct (decide (length (_colors pcd) = 1%nat)) as [H1|H1];
      [|destruct (decide (length (_colors pcd) = 3%nat)) as [H3|H3]].
    + rewrite (create_from_pcd_raises_at_99 pcd s m (or_introl H1) HK).
      do 2 eexists. split; [reflexivity|]. cbn. repeat split; auto.
    + rewrite (create_from_pcd_raises_at_99 pcd s m (or_intror H3) HK).
      do 2 eexists. split; [reflexivity|]. cbn. repeat split; auto.
    + rewrite (create_from_pcd_raises_at_86 pcd s m H1 H3 HK).
      do 2 eexists. split; [reflexivity|]. cbn. repeat split; auto.
Qed.

(** The end-to-end scenario of the spec: one white point at the origin,
    [max_sh_degree = 3], scale 2.0.  Line 99 throws, after [_xyz] alone was
    assigned. *)
Lemma create_from_pcd_one_point :
  exists m0,
    GaussianModel_ctor 3 = Ok m0
    /\ create_from_pcd one_point_cloud (F32.of_Z 2) m0 =
         (set_xyz (Torch.mkTensor [1%nat] [F32.zero])
            (set_spatial_lr_scale (Some (F32.of_Z 2)) m0),
          Raise (DimOutOfRange 2 2)).
Proof.
  eexists. split; [vm_compute; reflexivity|]. vm_compute. reflexivity.
Qed.

(** Two points: the 2 colors read at line 83 do not broadcast into the
    2 x 3 view written at line 86. *)
Lemma create_from_pcd_two_points :
  exists m0,
    GaussianModel_ctor 3 = Ok m0
    /\ create_from_pcd two_point_cloud (F32.of_Z 2) m0 =
         (set_spatial_lr_scale (Some (F32.of_Z 2)) m0,
          Raise (ExpandMismatch [2%nat] [2%nat; 3%nat])).
Proof.
  eexists. split; [vm_compute; reflexivity|]. vm_compute. reflexivity.
Qed.

(** The empty cloud: line 86 throws as well. *)
Lemma create_from_pcd_empty_cloud :
  exists m0,
    GaussianModel_ctor 3 = Ok m0
    /\ create_from_pcd empty_cloud (F32.of_Z 2) m0 =
         (set_spatial_lr_scale (Some (F32.of_Z 2)) m0,
          Raise (ExpandMismatch [0%nat] [0%nat; 3%nat])).
Proof.
  eexists. split; [vm_compute; reflexivity|]. vm_compute. reflexivity.
Qed.

(** [get_features] on a model whose coefficient tensors have the shapes of
    the data model (N x 1 x 3 and N x k x 3): the concatenation along
    dimension 1, of shape N x (1 + k) x 3, with the coefficient of order 0
    first. *)
Lemma get_features_of_populated (m : GaussianModel) (n k : nat) :
  Torch.sizes (_features_dc m) = [n; 1%nat; 3%nat] ->
  Torch.sizes (_features_rest m) = [n; k; 3%nat] ->
  exists t,
    get_features m = Ok t
    /\ Torch.sizes t = [n; S k; 3%nat]
    /\ forall i j c,
         (i < n)%nat -> (j < S k)%nat -> (c < 3)%nat ->
         Torch.get t [i; j; c] =
           match j with
           | O => Torch.get (_features_dc m) [i; 0%nat; c]
           | S j' => Torch.get (_features_rest m) [i; j'; c]
           end.
Proof.
  intros Hdc Hrest. unfold get_features, Torch.cat, Torch.dim.
  cbn [forallb length]. rewrite Hdc, Hrest. cbn [length Nat.eqb negb andb].
  cbn [Nat.ltb Nat.leb].
  assert (Hs1 : Torch.cat_should_skip (_features_dc m) = false)
    by (unfold Torch.cat_should_skip; rewrite Hdc;
        apply bool_decide_eq_false_2; discriminate).
  assert (Hs2 : Torch.cat_should_skip (_features_rest m) = false)
    by (unfold Torch.cat_should_skip; rewrite Hrest;
        apply bool_decide_eq_false_2; discriminate).
  rewrite filter_cons_True by exact Hs1.
  rewrite filter_cons_True by exact Hs2.
  rewrite filter_nil. rewrite Hdc.
  change (Torch.maybe_wrap_dim 1 (length [n; 1%nat; 3%nat]))
    with (Ok (A := nat) 1%nat).
  cbn [res_bind Torch.cat_check]. unfold Torch.dim. rewrite Hdc, Hrest.
  cbn [length Nat.eqb delete list_delete].
  rewrite !bool_decide_eq_true_2 by reflexivity.
  cbn [res_bind map foldr insert list_insert].
  rewrite Hdc, Hrest.
  cbn [lookup_total list_lookup_total Nat.add]. rewrite Nat.add_0_r.
  eexists. split; [reflexivity|]. split; [reflexivity|].
  intros i j c Hi Hj Hc. unfold Torch.get at 1. cbn [Torch.sizes Torch.data].
  erewrite list_lookup_total_correct
    by (apply lookup_tabulate; unfold in_range;
        repeat (constructor; [assumption|]); constructor).
  cbn [Torch.cat_get]. rewrite Hdc, Hrest.
  cbn [lookup_total list_lookup_total].
  destruct j as [|j']; [reflexivity|].
  change (S j' <? 1)%nat with false. cbv beta iota.
  cbn [Nat.sub insert list_insert lookup_total list_lookup_total].
  rewrite Nat.sub_0_r. change ([j'; c] !!! 0%nat) with j'.
  destruct (Nat.ltb_spec j' k); [reflexivity|lia].
Qed.

(** [training_setup] on a model that has "xyz" registered, as every
    constructed model has: the accumulators are reset, then the second
    registration of "xyz" at line 120 is refused, before the optimizer and
    the schedule are built. *)
Lemma training_setup_raises (params : OptimizationParameters)
    (m : GaussianModel) (n : nat) :
  Torch.sizes (_xyz m) = [n] ->
  existsb (String.eqb "xyz") (map fst (parameters_ m)) = true ->
  training_setup params m =
    (let zero := Torch.mkTensor [n; 1%nat] (replicate n F32.zero) in
     set_denom (Some zero)
       (set_xyz_gradient_accum zero
          (set_percent_dense (Some (params_percent_dense params)) m)),
     Raise (KeyAlreadyDefined "Parameter" "xyz")).
Proof.
  intros Hxyz Hreg.
  assert (Hsize : forall m', _xyz m' = _xyz m ->
            Torch.size (_xyz m') 0 = Ok (Z.of_nat n)).
  { intros m' ->. rewrite (size_nonneg _ 0) by (unfold Torch.dim; rewrite Hxyz; cbn; lia).
    rewrite Hxyz. reflexivity. }
  assert (Hzeros : Torch.zeros [Z.of_nat n; 1] =
            Ok (Torch.mkTensor [n; 1%nat] (replicate n F32.zero))).
  { unfold Torch.zeros, Torch.full. rewrite shape_of_cons_nat. cbn.
    rewrite Nat.mul_1_r. reflexivity. }
  cbv beta iota zeta delta
    [training_setup exec_bind exec_lift exec_modify exec_get].
  rewrite Hsize by reflexivity. rewrite Hzeros. cbv beta iota.
  rewrite Hsize by reflexivity. rewrite Hzeros. cbv beta iota.
  unfold register_parameter.
  change (String.eqb "xyz" EmptyString) with false.
  change (contains_dot "xyz") with false.
  cbn [parameters_ set_denom set_xyz_gradient_accum set_percent_dense].
  rewrite Hreg. reflexivity.
Qed.

(** [training_setup] after the constructor and a call of [create_from_pcd]
    (which threw): the state it leaves. *)
Lemma training_setup_after_create (D : Z) (pcd : PointCloud) (s : F32.t)
    (params : OptimizationParameters) :
  exists m0 m1 e n,
    GaussianModel_ctor D = Ok m0
    /\ create_from_pcd pcd s m0 = (m1, Raise e)
    /\ _spatial_lr_scale m1 = Some s
    /\ Torch.sizes (_xyz m1) = [n]
    /\ training_setup params m1 =
         (let zero := Torch.mkTensor [n; 1%nat] (replicate n F32.zero) in
          set_denom (Some zero)
            (set_xyz_gradient_accum zero
               (set_percent_dense (Some (params_percent_dense params)) m1)),
          Raise (KeyAlreadyDefined "Parameter" "xyz"))
    /\ optimizer m1 = None
    /\ _xyz_scheduler_args m1 =
         mkExpon_lr_func (F64.of_Z 0) (F64.of_Z 1)
           default_lr_delay_mult default_max_steps.
Proof.
  destruct (GaussianModel_ctor_ok D)
    as (m0 & Hctor & _ & _ & Hxyz & _ & _ & _ & _ & _ & _ & Hopt & Hreg
        & Hsched).
  destruct (create_from_pcd_keeps pcd s m0)
    as (e & m1 & Hrun & _ & _ & _ & _ & _ & _ & Hreg' & Hopt' & Hsched'
        & _ & _ & Hscale & Hxyz').
  assert (Hn : exists n, Torch.sizes (_xyz m1) = [n]).
  { destruct Hxyz' as [-> | ->]; [rewrite Hxyz|]; eexists; reflexivity. }
  destruct Hn as (n & Hn).
  exists m0, m1, e, n. repeat split; try assumption.
  - apply training_setup_raises; [exact Hn|].
    rewrite Hreg', Hreg. reflexivity.
  - congruence.
  - congruence.
Qed.

(** After [n] calls the active degree has grown by [n], up to the maximal
    degree. *)
Lemma oneupSHdegree_repeat (n : nat) (m : GaussianModel) :
  - 2 ^ 31 <= active_sh_degree m ->
  max_sh_degree m < 2 ^ 31 ->
  exists m',
    repeat_call n oneupSHdegree m = (m', Ok tt)
    /\ max_sh_degree m' = max_sh_degree m
    /\ active_sh_degree m' =
         if active_sh_degree m <? max_sh_degree m
         then Z.min (active_sh_degree m + Z.of_nat n) (max_sh_degree m)
         else active_sh_degree m.
Proof.
  revert m. induction n as [|n IH]; intros m Hlo Hhi.
  - exists m. cbn. repeat split.
    destruct (Z.ltb_spec (active_sh_degree m) (max_sh_degree m)); lia.
  - cbn [repeat_call]. unfold exec_bind, oneupSHdegree at 1.
    destruct (Z.ltb_spec (active_sh_degree m) (max_sh_degree m)) as [Hlt|Hge].
    + rewrite int_wrap_id by lia.
      destruct (IH (set_active_sh_degree (active_sh_degree m + 1) m))
        as (m' & Hrun & Hmax & Hact); cbn; try lia.
      exists m'. rewrite Hrun. cbn in Hmax, Hact. repeat split; [lia|].
      rewrite Hact.
      destruct (Z.ltb_spec (active_sh_degree m + 1) (max_sh_degree m)); lia.
    + destruct (IH m) as (m' & Hrun & Hmax & Hact); try lia.
      exists m'. rewrite Hrun. repeat split; [lia|].
      rewrite Hact.
      destruct (Z.ltb_spec (active_sh_degree m) (max_sh_degree m)); lia.
Qed.

(** C1.  Whatever the degree, point cloud and scale, [create_from_pcd] on a
    constructed model throws; [features_dc] and [features_rest] keep the
    empty tensors of the constructor, and [get_features] then returns the
    1-dimensional empty tensor, not a tensor of shape N x (D+1)^2 x 3.
    ([get_features] itself concatenates along dimension 1 and writes
    nothing: see [get_features_of_populated].) *)
Theorem get_features_after_create_from_pcd (D : Z) (pcd : PointCloud)
    (s : F32.t) :
  exists m0 m1 e,
    GaussianModel_ctor D = Ok m0
    /\ create_from_pcd pcd s m0 = (m1, Raise e)
    /\ _features_dc m1 = Torch.empty0
    /\ _features_rest m1 = Torch.empty0
    /\ get_features m1 = Ok Torch.empty0
    /\ forall t, get_features m1 = Ok t -> Torch.sizes t = [0%nat].
Proof.
  destruct (GaussianModel_ctor_ok D)
    as (m0 & Hctor & _ & _ & _ & Hdc & Hrest & _).
  destruct (create_from_pcd_keeps pcd s m0)
    as (e & m1 & Hrun & Hdc' & Hrest' & _).
  exists m0, m1, e. rewrite Hdc in Hdc'. rewrite Hrest in Hrest'.
  assert (Hget : get_features m1 = Ok Torch.empty0)
    by (unfold get_features; rewrite Hdc', Hrest'; reflexivity).
  repeat split; try assumption.
  intros t Ht. rewrite Hget in Ht. injection Ht as <-. reflexivity.
Qed.

(** C2.  Whatever the degree, point cloud and scale, [create_from_pcd] on a
    constructed model throws before [_rotation], [_opacity] and
    [_max_radii2D] are assigned: they keep the empty tensors of the
    constructor, as do [_features_dc], [_features_rest] and [_scaling], so
    for a cloud of N >= 1 points no tensor but [_xyz] has first extent N. *)
Theorem create_from_pcd_leaves_members_empty (D : Z) (pcd : PointCloud)
    (s : F32.t) :
  exists m0 m1 e,
    GaussianModel_ctor D = Ok m0
    /\ create_from_pcd pcd s m0 = (m1, Raise e)
    /\ _rotation m1 = Torch.empty0
    /\ _opacity m1 = Torch.empty0
    /\ _max_radii2D m1 = Torch.empty0
    /\ Torch.size (_features_dc m1) 0 = Ok 0
    /\ Torch.size (_features_rest m1) 0 = Ok 0
    /\ Torch.size (_scaling m1) 0 = Ok 0
    /\ Torch.size (_rotation m1) 0 = Ok 0
    /\ Torch.size (_opacity m1) 0 = Ok 0.
Proof.
  destruct (GaussianModel_ctor_ok D)
    as (m0 & Hctor & _ & _ & _ & Hdc & Hrest & Hsc & Hrot & Hop & Hmr & _).
  destruct (create_from_pcd_keeps pcd s m0)
    as (e & m1 & Hrun & Hdc' & Hrest' & Hsc' & Hrot' & Hop' & Hmr' & _).
  exists m0, m1, e.
  rewrite Hdc' , Hrest', Hsc', Hrot', Hop', Hmr'.
  rewrite Hdc, Hrest, Hsc, Hrot, Hop, Hmr.
  repeat split; try assumption; reflexivity.
Qed.

(** C3.  Whatever the degree, point cloud and scale, [create_from_pcd] on a
    constructed model throws before line 101: the scales computed at lines
    91-92 are never stored, and [_scaling] keeps the empty tensor of the
    constructor. *)
Theorem create_from_pcd_never_stores_scaling (D : Z) (pcd : PointCloud)
    (s : F32.t) :
  exists m0 m1 e,
    GaussianModel_ctor D = Ok m0
    /\ create_from_pcd pcd s m0 = (m1, Raise e)
    /\ _scaling m1 = Torch.empty0
    /\ Torch.data (_scaling m1) = [].
Proof.
  destruct (GaussianModel_ctor_ok D)
    as (m0 & Hctor & _ & _ & _ & _ & _ & Hsc & _).
  destruct (create_from_pcd_keeps pcd s m0)
    as (e & m1 & Hrun & _ & _ & Hsc' & _).
  exists m0, m1, e. rewrite Hsc', Hsc. repeat split; assumption.
Qed.

(** C4.  [oneupSHdegree] adds exactly 1 to [active_sh_degree] when it is
    below [max_sh_degree] (and then only), and changes nothing otherwise.
    From a model constructed with [max_sh_degree = D >= 0], after any
    number [n] of calls the active degree is [min n D]: it stays within
    [0, D], never decreases, and is [D] after [D + 5] calls. *)
Theorem oneupSHdegree_saturates (D : Z) :
  0 <= D < 2 ^ 31 ->
  (forall m,
     - 2 ^ 31 <= active_sh_degree m < 2 ^ 31 ->
     - 2 ^ 31 <= max_sh_degree m < 2 ^ 31 ->
     oneupSHdegree m =
       (if active_sh_degree m <? max_sh_degree m
        then set_active_sh_degree (active_sh_degree m + 1) m
        else m,
        Ok tt)
     /\ (active_sh_degree (fst (oneupSHdegree m)) = active_sh_degree m + 1
         <-> active_sh_degree m < max_sh_degree m))
  /\ exists m0,
       GaussianModel_ctor D = Ok m0
       /\ active_sh_degree m0 = 0
       /\ (forall n, exists m,
             repeat_call n oneupSHdegree m0 = (m, Ok tt)
             /\ active_sh_degree m = Z.min (Z.of_nat n) D
             /\ 0 <= active_sh_degree m <= D
             /\ active_sh_degree m <=
                  active_sh_degree
                    (fst (repeat_call (S n) oneupSHdegree m0)))
       /\ active_sh_degree
            (fst (repeat_call (Z.to_nat (D + 5)) oneupSHdegree m0)) = D.
Proof.
  intros HD. split.
  - intros m Ha Hm. unfold oneupSHdegree.
    destruct (Z.ltb_spec (active_sh_degree m) (max_sh_degree m)) as [Hlt|Hge].
    + rewrite int_wrap_id by lia. split; [reflexivity|]. cbn.
      split; [intros _; exact Hlt|reflexivity].
    + split; [reflexivity|]. cbn. lia.
  - destruct (GaussianModel_ctor_ok D)
      as (m0 & Hctor & Hmax & Hact & _).
    exists m0. split; [exact Hctor|]. split; [exact Hact|].
    assert (Hrun : forall n, exists m,
              repeat_call n oneupSHdegree m0 = (m, Ok tt)
              /\ active_sh_degree m = Z.min (Z.of_nat n) D).
    { intros n. destruct (oneupSHdegree_repeat n m0) as (m & Hr & _ & Ha);
        try lia.
      exists m. split; [exact Hr|]. rewrite Ha, Hact, Hmax.
      destruct (Z.ltb_spec 0 D); lia. }
    split.
    + intros n. destruct (Hrun n) as (m & Hr & Ha).
      destruct (Hrun (S n)) as (m' & Hr' & Ha').
      exists m. rewrite Hr'. cbn [fst]. repeat split; try lia. exact Hr.
    + destruct (Hrun (Z.to_nat (D + 5))) as (m & Hr & Ha).
      rewrite Hr. cbn [fst]. lia.
Qed.

(** C5.  After the constructor, [create_from_pcd] with scale [s] and
    [training_setup], the position schedule is still the one of the
    constructor, with initial rate 0.0 and final rate 1.0, whatever [s] and
    the configured rates are: [create_from_pcd] stores [s] and throws, and
    [training_setup], when it is called all the same, throws at line 120,
    before the schedule of lines 122-125 is built. *)
Theorem training_setup_keeps_initial_schedule (D : Z) (pcd : PointCloud)
    (s : F32.t) (params : OptimizationParameters) :
  exists m0 m1 e m2,
    GaussianModel_ctor D = Ok m0
    /\ create_from_pcd pcd s m0 = (m1, Raise e)
    /\ (create_from_pcd pcd s ;;; training_setup params)%exec m0 =
         (m1, Raise e)
    /\ _spatial_lr_scale m1 = Some s
    /\ lr_init (_xyz_scheduler_args m1) = F64.of_Z 0
    /\ training_setup params m1 =
         (m2, Raise (KeyAlreadyDefined "Parameter" "xyz"))
    /\ lr_init (_xyz_scheduler_args m2) = F64.of_Z 0
    /\ lr_final (_xyz_scheduler_args m2) = F64.of_Z 1.
Proof.
  destruct (training_setup_after_create D pcd s params)
    as (m0 & m1 & e & n & Hctor & Hrun & Hscale & _ & Hts & _ & Hsched).
  exists m0, m1, e. eexists.
  split; [exact Hctor|]. split; [exact Hrun|].
  split; [unfold exec_bind; rewrite Hrun; reflexivity|].
  split; [exact Hscale|]. split; [rewrite Hsched; reflexivity|].
  split; [exact Hts|]. cbn. rewrite Hsched. split; reflexivity.
Qed.

(** C6.  [training_setup], called on a constructed model after
    [create_from_pcd], stores [percent_dense] and resets both accumulators to
    N x 1 zeros, N being the first extent of [_xyz]; it then throws at line
    120, so no optimizer is constructed: [optimizer] stays null. *)
Theorem training_setup_builds_no_optimizer (D : Z) (pcd : PointCloud)
    (s : F32.t) (params : OptimizationParameters) :
  exists m0 m1 e m2 n,
    GaussianModel_ctor D = Ok m0
    /\ create_from_pcd pcd s m0 = (m1, Raise e)
    /\ training_setup params m1 =
         (m2, Raise (KeyAlreadyDefined "Parameter" "xyz"))
    /\ Torch.size (_xyz m1) 0 = Ok (Z.of_nat n)
    /\ percent_dense m2 = Some (params_percent_dense params)
    /\ _xyz_gradient_accum m2 =
         Torch.mkTensor [n; 1%nat] (replicate n F32.zero)
    /\ _denom m2 =
         Some (Torch.mkTensor [n; 1%nat] (replicate n F32.zero))
    /\ optimizer m2 = None
    /\ exists m2',
         training_setup params m0 =
           (m2', Raise (KeyAlreadyDefined "Parameter" "xyz"))
         /\ optimizer m2' = None.
Proof.
  destruct (training_setup_after_create D pcd s params)
    as (m0 & m1 & e & n & Hctor & Hrun & _ & Hn & Hts & Hopt & _).
  exists m0, m1, e. eexists. exists n.
  split; [exact Hctor|]. split; [exact Hrun|]. split; [exact Hts|].
  split.
  { rewrite (size_nonneg _ 0) by (unfold Torch.dim; rewrite Hn; cbn; lia).
    rewrite Hn. reflexivity. }
  cbn. do 3 (split; [reflexivity|]). split; [exact Hopt|].
  destruct (GaussianModel_ctor_ok D)
    as (m0' & Hctor' & _ & _ & Hxyz & _ & _ & _ & _ & _ & _ & Hopt0 & Hreg
        & _).
  assert (m0' = m0) as -> by congruence.
  eexists. split.
  - apply (training_setup_raises params m0 0); [rewrite Hxyz; reflexivity|].
    rewrite Hreg. reflexivity.
  - cbn. exact Hopt0.
Qed.


(** ** Camera *)

(** Line 34 on two matrices: the batch of one product is the product. *)
Lemma full_proj_transform_of_matrices (a b : FloatTensor) (n m p : nat) :
  Torch.sizes a = [n; m] ->
  Torch.sizes b = [m; p] ->
  full_proj_transform_of a b = matrix_product a b
  /\ exists full, matrix_product a b = Ok full /\ Torch.sizes full = [n; p].
Proof.
  destruct a as [sa da], b as [sb db]. cbn [Torch.sizes].
  intros -> ->.
  unfold full_proj_transform_of, matrix_product, Torch.unsqueeze, Torch.dim.
  cbn [Torch.sizes Torch.data length Nat.add].
  change (Torch.maybe_wrap_dim 0 3) with (Ok (A := nat) 0%nat).
  cbn [res_bind take drop app].
  unfold Torch.bmm. cbn [Torch.sizes].
  rewrite !Nat.eqb_refl. cbn [andb res_bind].
  unfold Torch.squeeze, Torch.dim. cbn [Torch.sizes Torch.data length].
  change (Torch.maybe_wrap_dim 0 3) with (Ok (A := nat) 0%nat).
  cbn [res_bind lookup list_lookup delete list_delete].
  split.
  - f_equal. f_equal. cbn [Torch.tabulate seq map mjoin list_join].
    rewrite app_nil_r. reflexivity.
  - eexists. split; reflexivity.
Qed.

(** The constructor returns whenever the image has three dimensions or
    more and the view transform has an inverse; this is the camera it
    builds. *)
Lemma Camera_ctor_ok (id : Z) (R : Matrix3f) (T : Vector3f)
    (FoVx FoVy : F32.t) (image : FloatTensor) (name : string) (uid : Z)
    (scale : F32.t) (inv : nat -> nat -> F32.t) :
  (3 <= Torch.dim image)%nat ->
  inverse_entries (getWorld2View2 R T Vector3f_Zero scale) = Some inv ->
  exists full center,
    matrix_product (getWorld2View2 R T Vector3f_Zero scale)
      (getProjectionMatrix f32_0_01 f32_100 FoVx FoVy) = Ok full
    /\ Camera_ctor id R T FoVx FoVy image name uid scale =
         Ok (mkCamera id R T FoVx FoVy name uid scale
               (Torch.clamp image F32.zero F32.one)
               (Z.of_nat (Torch.sizes image !!! 2%nat))
               (Z.of_nat (Torch.sizes image !!! 1%nat))
               f32_100 f32_0_01
               (getWorld2View2 R T Vector3f_Zero scale)
               (getProjectionMatrix f32_0_01 f32_100 FoVx FoVy)
               full center).
Proof.
  intros Hdim Hinv. unfold Camera_ctor.
  assert (Hd : Torch.dim (Torch.clamp image F32.zero F32.one)
               = Torch.dim image) by reflexivity.
  change 2 with (Z.of_nat 2). change 1 with (Z.of_nat 1) at 1.
  rewrite !size_nonneg by (rewrite Hd; lia).
  cbn [res_bind Torch.clamp Torch.tmap Torch.sizes].
  destruct (full_proj_transform_of_matrices
              (getWorld2View2 R T Vector3f_Zero scale)
              (getProjectionMatrix f32_0_01 f32_100 FoVx FoVy) 4 4 4)
    as (Heq & full & Hfull & Hsz); [reflexivity..|].
  rewrite Heq, Hfull. cbn [res_bind].
  unfold inverse. cbn [Torch.sizes getWorld2View2 matrix_of_entries].
  cbn [Nat.eqb]. rewrite Hinv.
  exists full. eexists. split; reflexivity.
Qed.

(** Without an inverse of the view transform the constructor throws. *)
Lemma Camera_ctor_singular (id : Z) (R : Matrix3f) (T : Vector3f)
    (FoVx FoVy : F32.t) (image : FloatTensor) (name : string) (uid : Z)
    (scale : F32.t) :
  (3 <= Torch.dim image)%nat ->
  inverse_entries (getWorld2View2 R T Vector3f_Zero scale) = None ->
  Camera_ctor id R T FoVx FoVy image name uid scale = Raise SingularMatrix.
Proof.
  intros Hdim Hinv. unfold Camera_ctor.
  assert (Hd : Torch.dim (Torch.clamp image F32.zero F32.one)
               = Torch.dim image) by reflexivity.
  change 2 with (Z.of_nat 2). change 1 with (Z.of_nat 1) at 1.
  rewrite !size_nonneg by (rewrite Hd; lia).
  cbn [res_bind Torch.clamp Torch.tmap Torch.sizes].
  destruct (full_proj_transform_of_matrices
              (getWorld2View2 R T Vector3f_Zero scale)
              (getProjectionMatrix f32_0_01 f32_100 FoVx FoVy) 4 4 4)
    as (Heq & full & Hfull & Hsz); [reflexivity..|].
  rewrite Heq, Hfull. cbn [res_bind].
  unfold inverse. cbn [Torch.sizes getWorld2View2 matrix_of_entries].
  cbn [Nat.eqb]. rewrite Hinv. reflexivity.
Qed.

Lemma same_trailing_extents (s s' : list nat) :
  drop 1 s' = drop 1 s ->
  (3 <= length s)%nat ->
  (3 <= length s')%nat
  /\ s' !!! 1%nat = s !!! 1%nat /\ s' !!! 2%nat = s !!! 2%nat.
Proof.
  destruct s as [|a s], s' as [|a' s']; cbn [length drop].
  - lia.
  - lia.
  - rewrite drop_0. intros <-. cbn. lia.
  - rewrite !drop_0. intros ->. cbn. auto.
Qed.

Lemma pixel_address_eq (w c i j k : nat) :
  pixel_address w c [i; j; k] = Z.of_nat ((i * w + j) * c + k).
Proof. unfold pixel_address. cbn. nia. Qed.

(** Line 41: the strides given are those of a contiguous
    height x width x channels buffer, and every element lies inside it. *)
Lemma from_blob_strided_image {A} `{Inhabited A} (buf : list A)
    (h w c : nat) :
  length buf = (h * w * c)%nat ->
  Torch.from_blob_strided buf [Z.of_nat h; Z.of_nat w; Z.of_nat c]
    [Z.of_nat w * Z.of_nat c; Z.of_nat c; 1] =
  Ok (Torch.mkTensor [h; w; c]
        (map (fun a => buf !!! Z.to_nat a)
             (Torch.tabulate [h; w; c] (pixel_address w c)))).
Proof.
  intros Hlen. unfold Torch.from_blob_strided.
  rewrite !shape_of_cons_nat. cbn [Torch.shape_of res_bind].
  fold (pixel_address w c).
  assert (Hall : forallb
            (fun a => (0 <=? a) && (a <? Z.of_nat (length buf)))
            (Torch.tabulate [h; w; c] (pixel_address w c)) = true).
  { apply forallb_forall. intros a Ha. apply list_elem_of_In in Ha.
    revert a Ha. apply Forall_forall, Forall_tabulate.
    intros idx Hidx.
    apply Forall2_cons_inv_r in Hidx as (i & idx1 & Hi & Hidx & ->).
    apply Forall2_cons_inv_r in Hidx as (j & idx2 & Hj & Hidx & ->).
    apply Forall2_cons_inv_r in Hidx as (k & idx3 & Hk & Hidx & ->).
    apply Forall2_nil_inv_r in Hidx as ->.
    rewrite pixel_address_eq, Hlen.
    apply andb_true_intro. split; [apply Z.leb_le; lia|].
    apply Z.ltb_lt. apply Nat2Z.inj_lt.
    assert (i * w + j + 1 <= h * w)%nat by nia.
    assert ((i * w + j + 1) * c <= h * w * c)%nat
      by (apply Nat.mul_le_mono_r; assumption).
    lia. }
  rewrite Hall. reflexivity.
Qed.

(** Channel-first: entry [(k, i, j)] of the tensor is byte [k] of pixel
    [(i, j)], as a [float], divided by 255. *)
Lemma get_normalized_image (h w c : nat) (buf : list Byte.byte)
    (k i j : nat) :
  (k < c)%nat -> (i < h)%nat -> (j < w)%nat ->
  Torch.get (normalized_image h w c buf) [k; i; j] =
    F32.div (F32.of_byte (buf !!! ((i * w + j) * c + k)%nat)) f32_255.
Proof.
  intros Hk Hi Hj. unfold normalized_image.
  assert (Hin : in_range [c; h; w] [k; i; j])
    by (repeat constructor; assumption).
  assert (Hin' : in_range [h; w; c] [i; j; k])
    by (repeat constructor; assumption).
  rewrite get_tmap.
  2:{ cbn [Torch.materialize Torch.sizes Torch.data].
      rewrite length_tabulate. apply (offset_lt _ _ Hin). }
  rewrite get_materialize by exact Hin.
  cbn [Torch.view_permute Torch.view_id Torch.vmap length seq zip zip_with
       foldr replicate fst snd].
  change (Torch.get ?t _) with (Torch.get t [i; j; k]).
  rewrite get_tmap.
  2:{ cbn [decoded_image Torch.sizes Torch.data].
      rewrite length_map, length_tabulate. apply (offset_lt _ _ Hin'). }
  unfold Torch.get, decoded_image. cbn [Torch.sizes Torch.data].
  rewrite (list_lookup_total_fmap _
             (Torch.tabulate [h; w; c] (pixel_address w c)))
    by (rewrite length_tabulate; apply (offset_lt _ _ Hin')).
  rewrite (list_lookup_total_correct
             (Torch.tabulate [h; w; c] (pixel_address w c)) _ _
             (lookup_tabulate _ _ _ Hin')).
  rewrite pixel_address_eq, Nat2Z.id. reflexivity.
Qed.

Lemma length_normalized_image (h w c : nat) (buf : list Byte.byte) :
  length (Torch.data (normalized_image h w c buf)) = Torch.numel [c; h; w].
Proof.
  unfold normalized_image. cbn [Torch.tmap Torch.materialize Torch.data].
  rewrite length_map. apply length_tabulate.
Qed.

(** C8.  On a record whose image buffer holds height x width x channels
    bytes, [loadCam] releases the buffer and nulls the record's pointer;
    when the view transform has an inverse it returns a camera whose
    [original_image] is channel-first, entry [(k, i, j)] being byte [k] of
    pixel [(i, j)] divided by 255 (and clamped to [0, 1] by the
    constructor); a 4 x 4 x 3 buffer of bytes 255 gives the 3 x 4 x 4 tensor
    of ones.  Without an inverse the constructor throws, after the
    release. *)
Theorem loadCam_normalizes_and_releases (params : ModelParameters)
    (id : Z) (ci : CameraInfo) (hp : Heap) (a : nat)
    (buf : list Byte.byte) (h w c : nat) :
  _img_data ci = Some a ->
  hp !! a = Some buf ->
  _img_h ci = Z.of_nat h ->
  _img_w ci = Z.of_nat w ->
  _channels ci = Z.of_nat c ->
  length buf = (h * w * c)%nat ->
  exists r,
    loadCam params id (mkWorld ci hp) =
      (mkWorld (set_img_data None ci) (delete a hp), r)
    /\ (forall inv,
          inverse_entries
            (getWorld2View2 (ci_R ci) (ci_T ci) Vector3f_Zero
               Camera_default_scale) = Some inv ->
          exists cam,
            r = Ok cam
            /\ Torch.sizes (_original_image cam) = [c; h; w]
            /\ (forall k i j,
                  (k < c)%nat -> (i < h)%nat -> (j < w)%nat ->
                  Torch.get (_original_image cam) [k; i; j] =
                    F32.clamp F32.zero F32.one
                      (F32.div
                         (F32.of_byte (buf !!! ((i * w + j) * c + k)%nat))
                         f32_255))
            /\ (h = 4%nat -> w = 4%nat -> c = 3%nat ->
                buf = replicate 48 Byte.xff ->
                _original_image cam =
                  Torch.mkTensor [3; 4; 4]%nat (replicate 48 F32.one)))
    /\ (inverse_entries
          (getWorld2View2 (ci_R ci) (ci_T ci) Vector3f_Zero
             Camera_default_scale) = None ->
        r = Raise SingularMatrix).
Proof.
  intros Hptr Hheap Hh Hw Hc Hlen.
  assert (Hdim : (3 <= Torch.dim (normalized_image h w c buf))%nat)
    by (cbn; lia).
  cbv beta iota zeta delta
    [loadCam exec_bind exec_lift exec_get exec_modify].
  cbn [cam_info heap]. rewrite Hptr, Hh, Hw, Hc.
  unfold pointee. cbn [heap mbind option_bind]. rewrite Hheap.
  cbn [default]. rewrite from_blob_strided_image by assumption.
  change (p <-- Torch.permute _ _ ;; Ok _)
    with (Ok (normalized_image h w c buf)).
  cbv beta iota. unfold free_image. cbn [heap cam_info]. rewrite Hheap.
  cbn [cam_info heap set_img_data _camera_ID ci_R ci_T _fov_x _fov_y
       ci_image_name].
  eexists. split; [reflexivity|]. split.
  - intros inv Hinv.
    destruct (Camera_ctor_ok (_camera_ID ci) (ci_R ci) (ci_T ci)
                (_fov_x ci) (_fov_y ci) (normalized_image h w c buf)
                (ci_image_name ci) id Camera_default_scale inv Hdim Hinv)
      as (full & center & _ & Hcam).
    eexists. split; [exact Hcam|]. cbn [_original_image].
    split; [reflexivity|]. split.
    + intros k i j Hk Hi Hj. unfold Torch.clamp.
      rewrite get_tmap.
      * rewrite get_normalized_image by assumption. reflexivity.
      * rewrite length_normalized_image.
        apply (offset_lt [c; h; w] [k; i; j]).
        repeat constructor; assumption.
    + intros -> -> -> ->. vm_compute. reflexivity.
  - intros Hinv.
    apply Camera_ctor_singular; assumption.
Qed.

(** C9.  For every input of the constructor, the batched product of line 34
    gives the plain product of the view transform and the projection
    matrix, and that product is the [full_proj_transform] of the camera that
    is constructed. *)
Theorem full_proj_transform_is_matrix_product (id : Z) (R : Matrix3f)
    (T : Vector3f) (FoVx FoVy : F32.t) (image : FloatTensor)
    (name : string) (uid : Z) (scale : F32.t) :
  let world_view := getWorld2View2 R T Vector3f_Zero scale in
  let projection := getProjectionMatrix f32_0_01 f32_100 FoVx FoVy in
  exists full,
    matrix_product world_view projection = Ok full
    /\ full_proj_transform_of world_view projection = Ok full
    /\ forall cam,
         Camera_ctor id R T FoVx FoVy image name uid scale = Ok cam ->
         _world_view_transform cam = world_view
         /\ _projection_matrix cam = projection
         /\ _full_proj_transform cam = full.
Proof.
  intros world_view projection.
  destruct (full_proj_transform_of_matrices world_view projection 4 4 4)
    as (Heq & full & Hfull & _); [reflexivity..|].
  exists full. split; [exact Hfull|]. split; [congruence|].
  intros cam. unfold Camera_ctor.
  fold world_view. fold projection. rewrite Heq, Hfull.
  destruct (Torch.size _ 2) as [w|e]; [|discriminate].
  destruct (Torch.size _ 1) as [h|e]; [|discriminate].
  cbn [res_bind].
  destruct (res_bind (inverse _) _) as [c|e]; [|discriminate].
  cbn [res_bind]. intros [= <-]. repeat split.
Qed.

(** C10.  The constructor takes the image as channel-first: for an image
    of three dimensions or more, [image_width] is the extent of dimension 2
    and [image_height] the extent of dimension 1, so that two images that
    differ in dimension 0 alone give the same width and height, and an
    H x W x 3 image gives width 3 and height W. *)
Theorem Camera_reads_image_as_channel_first (id : Z) (R : Matrix3f)
    (T : Vector3f) (FoVx FoVy : F32.t) (image : FloatTensor)
    (name : string) (uid : Z) (scale : F32.t) (inv : nat -> nat -> F32.t) :
  (3 <= Torch.dim image)%nat ->
  inverse_entries (getWorld2View2 R T Vector3f_Zero scale) = Some inv ->
  exists cam,
    Camera_ctor id R T FoVx FoVy image name uid scale = Ok cam
    /\ _image_width cam = Z.of_nat (Torch.sizes image !!! 2%nat)
    /\ _image_height cam = Z.of_nat (Torch.sizes image !!! 1%nat)
    /\ (forall image' cam',
          drop 1 (Torch.sizes image') = drop 1 (Torch.sizes image) ->
          Camera_ctor id R T FoVx FoVy image' name uid scale = Ok cam' ->
          _image_width cam' = _image_width cam
          /\ _image_height cam' = _image_height cam)
    /\ (forall H W : nat,
          Torch.sizes image = [H; W; 3%nat] ->
          _image_width cam = 3 /\ _image_height cam = Z.of_nat W).
Proof.
  intros Hdim Hinv.
  destruct (Camera_ctor_ok id R T FoVx FoVy image name uid scale inv
              Hdim Hinv) as (full & center & _ & Hcam).
  eexists. split; [exact Hcam|]. cbn.
  split; [reflexivity|]. split; [reflexivity|]. split.
  - intros image' cam' Hsizes Hcam'.
    destruct (same_trailing_extents _ _ Hsizes Hdim) as (Hdim' & H1 & H2).
    destruct (Camera_ctor_ok id R T FoVx FoVy image' name uid scale inv
                Hdim' Hinv) as (full' & center' & _ & Hcam'').
    rewrite Hcam'' in Hcam'. injection Hcam' as <-. cbn.
    rewrite H1, H2. split; reflexivity.
  - intros H W ->. split; reflexivity.
Qed.

(** ** Further properties of the model container *)

Lemma set_active_sh_degree_same (m : GaussianModel) :
  set_active_sh_degree (active_sh_degree m) m = m.
Proof. destruct m. reflexivity. Qed.

(** X1. The constructor returns for every degree. It leaves [_denom],
    [_spatial_lr_scale] and [percent_dense] without a value and registers
    six parameters, in this order, each the empty tensor; a further
    registration under one of the six names is refused and changes nothing. *)
Theorem GaussianModel_ctor_registers_six_parameters (D : Z) :
  exists m0,
    GaussianModel_ctor D = Ok m0
    /\ parameters_ m0 =
         map (fun name => (name, Torch.empty0))
           ["xyz"; "features_dc"; "features_rest"; "scaling"; "rotation";
            "opacity"]%string
    /\ parameters m0 = replicate 6 Torch.empty0
    /\ _xyz_gradient_accum m0 = Torch.empty0
    /\ _denom m0 = None
    /\ _spatial_lr_scale m0 = None
    /\ percent_dense m0 = None
    /\ forall name t,
         In name (map fst (parameters_ m0)) ->
         register_parameter name t m0 =
           (m0, Raise (KeyAlreadyDefined "Parameter" name)).
Proof.
  eexists. split; [vm_compute; reflexivity|].
  do 6 (split; [reflexivity|]).
  intros name t Hin. cbn in Hin.
  repeat (destruct Hin as [<-|Hin]; [vm_compute; reflexivity|]).
  destruct Hin.
Qed.

Lemma dim_transpose {A} `{Inhabited A} (t t' : Torch.Tensor A) (d0 d1 : Z) :
  Torch.transpose t d0 d1 = Ok t' -> Torch.dim t' = Torch.dim t.
Proof.
  unfold Torch.transpose.
  destruct (Torch.maybe_wrap_dim d0 _) as [k0|e]; [|discriminate].
  destruct (Torch.maybe_wrap_dim d1 _) as [k1|e]; [|discriminate].
  cbn [res_bind]. intros [= <-]. unfold Torch.dim.
  cbn [Torch.materialize Torch.sizes Torch.view_permute Torch.vsizes].
  rewrite length_map, !length_insert, length_seq. reflexivity.
Qed.

(** X2. The covariance activation bound by the constructor throws on every
    input: [transpose(1, 2)] needs a tensor of three dimensions at least,
    and [torch::mm] refuses one that is not a matrix. On the N x 3 x 3
    tensor that [build_scaling_rotation] stands for, it is [torch::mm] that
    throws. *)
Theorem covariance_activation_always_throws
    (scaling scaling_modifier rotation : FloatTensor) :
  is_Ok (covariance_activation scaling scaling_modifier rotation) = false
  /\ forall L,
       (scaled <-- Torch.mul scaling_modifier scaling ;;
        build_scaling_rotation scaled rotation) = Ok L ->
       (Torch.dim L = 2%nat ->
        covariance_activation scaling scaling_modifier rotation =
          Raise (DimOutOfRange 2 2))
       /\ (forall n : nat,
             Torch.sizes L = [n; 3%nat; 3%nat] ->
             covariance_activation scaling scaling_modifier rotation =
               Raise (MmShape [n; 3%nat; 3%nat] [n; 3%nat; 3%nat])).
Proof.
  unfold covariance_activation.
  destruct (res_bind (Torch.mul scaling_modifier scaling) _) as [L|e];
    [|split; [reflexivity|discriminate]].
  cbn [res_bind]. split.
  - destruct (Torch.transpose L 1 2) as [Lt|e] eqn:Ht; [|reflexivity].
    cbn [res_bind]. pose proof (dim_transpose _ _ _ _ Ht) as Hd.
    assert (Hmm : exists e, Torch.mm L Lt = Raise e).
    { unfold Torch.mm.
      destruct (Torch.sizes L) as [|a [|b [|c s]]] eqn:HL;
        try (eexists; reflexivity).
      exfalso. revert Ht. unfold Torch.transpose, Torch.dim. rewrite HL.
      discriminate. }
    destruct Hmm as (e & ->). reflexivity.
  - intros L' [= <-]. split.
    + intros Hdim. unfold Torch.transpose. rewrite Hdim. reflexivity.
    + intros n HL. unfold Torch.transpose, Torch.dim. rewrite HL.
      cbn [length]. 
      change (Torch.maybe_wrap_dim 1 3) with (Ok (A := nat) 1%nat).
      change (Torch.maybe_wrap_dim 2 3) with (Ok (A := nat) 2%nat).
      cbn [res_bind]. unfold Torch.mm.
      cbn [Torch.materialize Torch.sizes Torch.view_permute Torch.vsizes
           Torch.view_id seq insert list_insert map lookup_total
           list_lookup_total].
      rewrite HL. reflexivity.
Qed.

(** X3. [get_features] concatenates along dimension 1: on coefficient
    tensors of shapes N x a x C and N x b x C it returns a well-formed
    tensor of shape N x (a + b) x C, whose first [a] coefficients are those
    of [_features_dc] and whose others are those of [_features_rest]. *)
Theorem get_features_concatenates (m : GaussianModel) (n a b c : nat) :
  Torch.sizes (_features_dc m) = [n; a; c] ->
  Torch.sizes (_features_rest m) = [n; b; c] ->
  exists t,
    get_features m = Ok t
    /\ Torch.sizes t = [n; (a + b)%nat; c]
    /\ length (Torch.data t) = (n * ((a + b) * c))%nat
    /\ forall i j k,
         (i < n)%nat -> (j < a + b)%nat -> (k < c)%nat ->
         Torch.get t [i; j; k] =
           if (j <? a)%nat
           then Torch.get (_features_dc m) [i; j; k]
           else Torch.get (_features_rest m) [i; (j - a)%nat; k].
Proof.
  intros Hdc Hrest. unfold get_features, Torch.cat, Torch.dim.
  cbn [forallb length]. rewrite Hdc, Hrest. cbn [length Nat.eqb negb andb].
  change (0 <? 2)%nat with true. cbv iota.
  assert (Hs1 : Torch.cat_should_skip (_features_dc m) = false)
    by (unfold Torch.cat_should_skip; rewrite Hdc;
        apply bool_decide_eq_false_2; discriminate).
  assert (Hs2 : Torch.cat_should_skip (_features_rest m) = false)
    by (unfold Torch.cat_should_skip; rewrite Hrest;
        apply bool_decide_eq_false_2; discriminate).
  rewrite filter_cons_True by exact Hs1.
  rewrite filter_cons_True by exact Hs2.
  rewrite filter_nil. rewrite Hdc.
  change (Torch.maybe_wrap_dim 1 (length [n; a; c]))
    with (Ok (A := nat) 1%nat).
  cbn [res_bind Torch.cat_check]. unfold Torch.dim. rewrite Hdc, Hrest.
  cbn [length Nat.eqb delete list_delete].
  rewrite !bool_decide_eq_true_2 by reflexivity.
  cbn [res_bind map foldr insert list_insert].
  rewrite Hdc, Hrest.
  cbn [lookup_total list_lookup_total]. rewrite Nat.add_0_r.
  eexists. split; [reflexivity|]. split; [reflexivity|].
  split.
  { cbn [Torch.data]. rewrite length_tabulate. cbn [Torch.numel foldr].
    rewrite Nat.mul_1_r. reflexivity. }
  intros i j k Hi Hj Hk. unfold Torch.get at 1. cbn [Torch.sizes Torch.data].
  erewrite list_lookup_total_correct
    by (apply lookup_tabulate; unfold in_range;
        repeat (constructor; [assumption|]); constructor).
  cbn [Torch.cat_get]. rewrite Hdc, Hrest.
  cbn [lookup_total list_lookup_total].
  destruct (Nat.ltb_spec j a) as [Hlt|Hge]; [reflexivity|].
  cbn [insert list_insert lookup_total list_lookup_total].
  destruct (Nat.ltb_spec (j - a) b); [reflexivity|lia].
Qed.

(** X4. [get_features] throws when the two coefficient tensors do not
    agree on the number of points or of channels, and when [_features_dc]
    has lost a dimension (whatever the extents are then). *)
Theorem get_features_rejects_mismatch (m : GaussianModel)
    (n a c n' b c' : nat) :
  (Torch.sizes (_features_dc m) = [n; a; c] ->
   Torch.sizes (_features_rest m) = [n'; b; c'] ->
   n <> n' \/ c <> c' ->
   get_features m = Raise (CatSizeMismatch 1 [n; a; c] [n'; b; c']))
  /\ (Torch.sizes (_features_dc m) = [n; c] ->
      Torch.sizes (_features_rest m) = [n'; b; c'] ->
      get_features m = Raise (CatRankMismatch 2 3)).
Proof.
  split.
  - intros Hdc Hrest Hne.
    unfold get_features, Torch.cat, Torch.dim.
    cbn [forallb length]. rewrite Hdc, Hrest.
    cbn [length Nat.eqb negb andb Nat.ltb Nat.leb].
    rewrite filter_cons_True
      by (unfold Torch.cat_should_skip; rewrite Hdc;
          apply bool_decide_eq_false_2; discriminate).
    rewrite filter_cons_True
      by (unfold Torch.cat_should_skip; rewrite Hrest;
          apply bool_decide_eq_false_2; discriminate).
    rewrite filter_nil. rewrite Hdc.
    change (Torch.maybe_wrap_dim 1 (length [n; a; c]))
      with (Ok (A := nat) 1%nat).
    cbn [res_bind Torch.cat_check]. unfold Torch.dim. rewrite Hdc, Hrest.
    cbn [length Nat.eqb delete list_delete].
    rewrite bool_decide_eq_true_2 by reflexivity.
    rewrite bool_decide_eq_false_2; [reflexivity|].
    intros [= -> ->]. destruct Hne as [Hne|Hne]; apply Hne; reflexivity.
  - intros Hdc2 Hrest2.
    unfold get_features, Torch.cat, Torch.dim.
    cbn [forallb length]. rewrite Hdc2, Hrest2.
    cbn [length Nat.eqb negb andb Nat.ltb Nat.leb].
    rewrite filter_cons_True
      by (unfold Torch.cat_should_skip; rewrite Hdc2;
          apply bool_decide_eq_false_2; discriminate).
    rewrite filter_cons_True
      by (unfold Torch.cat_should_skip; rewrite Hrest2;
          apply bool_decide_eq_false_2; discriminate).
    rewrite filter_nil. rewrite Hdc2.
    change (Torch.maybe_wrap_dim 1 (length [n; c]))
      with (Ok (A := nat) 1%nat).
    cbn [res_bind Torch.cat_check]. unfold Torch.dim. rewrite Hdc2, Hrest2.
    cbn [length Nat.eqb delete list_delete].
    rewrite bool_decide_eq_true_2 by reflexivity. reflexivity.
Qed.


(** X6. Any number of calls of [oneupSHdegree], on any model, changes the
    active degree alone: it grows by one per call up to the maximal degree.
    A model whose active degree is not below the maximal one (as one
    constructed with a negative degree) is left exactly as it is. *)
Theorem oneupSHdegree_changes_active_degree_only (n : nat)
    (m : GaussianModel) :
  - 2 ^ 31 <= active_sh_degree m < 2 ^ 31 ->
  - 2 ^ 31 <= max_sh_degree m < 2 ^ 31 ->
  repeat_call n oneupSHdegree m =
    (set_active_sh_degree
       (if active_sh_degree m <? max_sh_degree m
        then Z.min (active_sh_degree m + Z.of_nat n) (max_sh_degree m)
        else active_sh_degree m) m,
     Ok tt)
  /\ (max_sh_degree m <= active_sh_degree m ->
      repeat_call n oneupSHdegree m = (m, Ok tt)).
Proof.
  intros Ha Hm.
  assert (Hgen : forall n m,
            - 2 ^ 31 <= active_sh_degree m < 2 ^ 31 ->
            - 2 ^ 31 <= max_sh_degree m < 2 ^ 31 ->
            repeat_call n oneupSHdegree m =
              (set_active_sh_degree
                 (if active_sh_degree m <? max_sh_degree m
                  then Z.min (active_sh_degree m + Z.of_nat n)
                         (max_sh_degree m)
                  else active_sh_degree m) m,
               Ok tt)).
  { clear. intros n. induction n as [|n IH]; intros m Ha Hm.
    - cbn [repeat_call]. unfold exec_ret. f_equal.
      rewrite <- (set_active_sh_degree_same m) at 1. f_equal.
      destruct (Z.ltb_spec (active_sh_degree m) (max_sh_degree m)); lia.
    - cbn [repeat_call]. unfold exec_bind, oneupSHdegree at 1.
      destruct (Z.ltb_spec (active_sh_degree m) (max_sh_degree m))
        as [Hlt|Hge].
      + rewrite int_wrap_id by lia. rewrite IH by (cbn; lia).
        cbn [active_sh_degree max_sh_degree set_active_sh_degree].
        f_equal. unfold set_active_sh_degree. cbn. f_equal.
        destruct (Z.ltb_spec (active_sh_degree m + 1) (max_sh_degree m));
          lia.
      + rewrite IH by assumption.
        destruct (Z.ltb_spec (active_sh_degree m) (max_sh_degree m)); [lia|].
        reflexivity. }
  split; [apply Hgen; assumption|].
  intros Hge. rewrite Hgen by assumption.
  destruct (Z.ltb_spec (active_sh_degree m) (max_sh_degree m)); [lia|].
  rewrite set_active_sh_degree_same. reflexivity.
Qed.

(** X7. The outcome of [create_from_pcd] for a maximal degree from -1024
    to 1023 (so that the number of coefficients is the exact square, of at
    most 2^20): which check throws depends on the maximal degree and on the
    number of colors alone. With no coefficient at all (degree -1) the
    integer index of line 86 is out of bounds; with 1 or 3 colors line 86
    broadcasts, [_xyz] is assigned at line 98 and the transposition of line
    99 throws; with any other number of colors the broadcast of line 86
    throws. *)
Theorem create_from_pcd_outcome (pcd : PointCloud) (s : F32.t)
    (m : GaussianModel) :
  - 1024 <= max_sh_degree m < 1024 ->
  let N := length (_points pcd) in
  let M := length (_colors pcd) in
  create_from_pcd pcd s m =
    if max_sh_degree m =? -1
    then (set_spatial_lr_scale (Some s) m, Raise (IndexOutOfBounds 0 2 0))
    else if (M =? 1)%nat || (M =? 3)%nat
    then (set_xyz (Torch.mkTensor [N] (take N (points_data pcd)))
            (set_spatial_lr_scale (Some s) m),
          Raise (DimOutOfRange 2 2))
    else (set_spatial_lr_scale (Some s) m,
          Raise (ExpandMismatch [M] [M; 3%nat])).
Proof.
  intros HD N M. subst N M.
  destruct (Z.eqb_spec (max_sh_degree m) (-1)) as [Hm|Hm].
  - apply create_from_pcd_raises_no_coefficient.
    rewrite sh_coeff_count_exact by exact HD. rewrite Hm. reflexivity.
  - pose proof (sh_coeff_count_pos _ HD Hm) as HK.
    destruct (Nat.eqb_spec (length (_colors pcd)) 1) as [H1|H1].
    + apply create_from_pcd_raises_at_99; [left; exact H1|exact HK].
    + destruct (Nat.eqb_spec (length (_colors pcd)) 3) as [H3|H3].
      * apply create_from_pcd_raises_at_99; [right; exact H3|exact HK].
      * apply create_from_pcd_raises_at_86; assumption.
Qed.

Lemma lookup_points_data (l : list Point) (i : nat) :
  (p ← l; [x p; y p; z p]) !! i =
    l !! (i / 3)%nat ≫= fun p => [x p; y p; z p] !! (i mod 3)%nat.
Proof.
  revert i. induction l as [|p l IH]; intros i.
  - reflexivity.
  - cbn [mbind list_bind]. change (mbind ?f l) with (p ← l; f p).
    destruct (Nat.lt_ge_cases i 3) as [Hlt|Hge].
    + rewrite (Nat.div_small i 3), (Nat.mod_small i 3) by exact Hlt.
      rewrite lookup_app_l by (cbn; lia). reflexivity.
    + rewrite lookup_app_r by (cbn; lia). cbn [length].
      rewrite IH.
      assert (Hdiv : (i / 3 = S ((i - 3) / 3))%nat).
      { replace (i / 3)%nat with (((i - 3) + 1 * 3) / 3)%nat
          by (f_equal; lia).
        rewrite Nat.div_add by lia. lia. }
      assert (Hmod : (i mod 3 = (i - 3) mod 3)%nat).
      { replace (i mod 3)%nat with (((i - 3) + 1 * 3) mod 3)%nat
          by (f_equal; lia).
        apply Nat.Div0.mod_add. }
      rewrite Hdiv, Hmod. reflexivity.
Qed.

(** X8. What line 98 stores when it is reached (1 or 3 colors, a maximal
    degree from -1024 to 1023 other than -1): [_xyz] is a 1-dimensional
    tensor of N floats, the first N of the 3N coordinates of the cloud
    (line 82 gives the buffer the shape [N]); element [i] is coordinate
    [i mod 3] of point [i / 3], so the points after the first N / 3 do not
    enter it. *)
Theorem create_from_pcd_xyz_is_a_flat_prefix (pcd : PointCloud) (s : F32.t)
    (m : GaussianModel) :
  - 1024 <= max_sh_degree m < 1024 ->
  max_sh_degree m <> -1 ->
  length (_colors pcd) = 1%nat \/ length (_colors pcd) = 3%nat ->
  let N := length (_points pcd) in
  let xyz := _xyz (fst (create_from_pcd pcd s m)) in
  Torch.sizes xyz = [N]
  /\ length (Torch.data xyz) = N
  /\ forall i p,
       (i < N)%nat ->
       _points pcd !! (i / 3)%nat = Some p ->
       Torch.get xyz [i] = [x p; y p; z p] !!! (i mod 3)%nat.
Proof.
  intros Hbound HD HM N xyz. subst xyz.
  rewrite (create_from_pcd_raises_at_99 pcd s m HM
             (sh_coeff_count_pos _ Hbound HD)).
  cbn [fst _xyz set_xyz Torch.sizes Torch.data]. fold N.
  split; [reflexivity|]. split.
  { rewrite length_take, length_points_data. fold N. lia. }
  intros i p Hi Hp. unfold Torch.get. cbn [Torch.sizes Torch.data Torch.offset
    Torch.numel foldr]. rewrite Nat.mul_1_r, Nat.add_0_r.
  apply list_lookup_total_correct.
  rewrite lookup_take_lt by exact Hi.
  unfold points_data. rewrite lookup_points_data, Hp. cbn [mbind option_bind].
  apply list_lookup_lookup_total_lt. cbn [length].
  apply Nat.mod_upper_bound. lia.
Qed.

(** X9. [create_from_pcd] never touches the parameters the constructor
    registered: after the call [parameters()] still gives six empty
    tensors, and when [_xyz] was assigned (1 or 3 colors, a maximal degree
    from -1024 to 1023 other than -1) the member holds N floats while the
    parameter registered as "xyz" is still the empty tensor. *)
Theorem create_from_pcd_leaves_registered_parameters (D : Z)
    (pcd : PointCloud) (s : F32.t) :
  exists m0 m1 e,
    GaussianModel_ctor D = Ok m0
    /\ create_from_pcd pcd s m0 = (m1, Raise e)
    /\ parameters_ m1 = parameters_ m0
    /\ parameters m1 = replicate 6 Torch.empty0
    /\ parameters_ m1 !! 0%nat = Some ("xyz"%string, Torch.empty0)
    /\ (- 1024 <= D < 1024 -> D <> -1 ->
        length (_colors pcd) = 1%nat \/ length (_colors pcd) = 3%nat ->
        Torch.sizes (_xyz m1) = [length (_points pcd)]).
Proof.
  destruct (GaussianModel_ctor_ok D)
    as (m0 & Hctor & Hmax & _ & _ & _ & _ & _ & _ & _ & _ & _ & _ & _).
  destruct (create_from_pcd_keeps pcd s m0)
    as (e & m1 & Hrun & _ & _ & _ & _ & _ & _ & Hreg & _).
  exists m0, m1, e.
  split; [exact Hctor|]. split; [exact Hrun|]. split; [exact Hreg|].
  assert (Hpar : parameters_ m0 =
            map (fun name => (name, Torch.empty0))
              ["xyz"; "features_dc"; "features_rest"; "scaling"; "rotation";
               "opacity"]%string).
  { revert Hctor. vm_compute. intros [= <-]. reflexivity. }
  unfold parameters. rewrite Hreg, Hpar.
  split; [reflexivity|]. split; [reflexivity|].
  intros Hbound HD HM.
  rewrite (create_from_pcd_raises_at_99 pcd s m0 HM) in Hrun
    by (rewrite Hmax; apply sh_coeff_count_pos; assumption).
  injection Hrun as <- _. reflexivity.
Qed.

(** X10. [training_setup] on any model that has "xyz" registered and whose
    [_xyz] has N as first extent (N x 3 in the data model): it stores
    [percent_dense], resets both accumulators to N x 1 zeros and throws at
    line 120. Positions, registered parameters, optimizer and schedule are
    as before, and a second call gives the same model and the same
    exception. *)
Theorem training_setup_refuses_second_registration
    (params : OptimizationParameters) (m : GaussianModel) (n : nat)
    (rest : list nat) :
  Torch.sizes (_xyz m) = n :: rest ->
  In "xyz"%string (map fst (parameters_ m)) ->
  let zero := Torch.mkTensor [n; 1%nat] (replicate n F32.zero) in
  let m' :=
    set_denom (Some zero)
      (set_xyz_gradient_accum zero
         (set_percent_dense (Some (params_percent_dense params)) m)) in
  training_setup params m = (m', Raise (KeyAlreadyDefined "Parameter" "xyz"))
  /\ _xyz m' = _xyz m
  /\ parameters_ m' = parameters_ m
  /\ optimizer m' = optimizer m
  /\ _xyz_scheduler_args m' = _xyz_scheduler_args m
  /\ training_setup params m' =
       (m', Raise (KeyAlreadyDefined "Parameter" "xyz")).
Proof.
  intros Hxyz Hreg zero m'.
  assert (Hraise : forall m1,
            _xyz m1 = _xyz m -> parameters_ m1 = parameters_ m ->
            training_setup params m1 =
              (set_denom (Some zero)
                 (set_xyz_gradient_accum zero
                    (set_percent_dense
                       (Some (params_percent_dense params)) m1)),
               Raise (KeyAlreadyDefined "Parameter" "xyz"))).
  { intros m1 Hx Hp.
    assert (Hsize : forall m2, _xyz m2 = _xyz m ->
              Torch.size (_xyz m2) 0 = Ok (Z.of_nat n)).
    { intros m2 ->. rewrite (size_nonneg _ 0)
        by (unfold Torch.dim; rewrite Hxyz; cbn; lia).
      rewrite Hxyz. reflexivity. }
    assert (Hzeros : Torch.zeros [Z.of_nat n; 1] = Ok zero).
    { unfold Torch.zeros, Torch.full. rewrite shape_of_cons_nat. cbn.
      rewrite Nat.mul_1_r. reflexivity. }
    cbv beta iota zeta delta
      [training_setup exec_bind exec_lift exec_modify exec_get].
    rewrite Hsize by exact Hx. rewrite Hzeros. cbv beta iota.
    rewrite Hsize by exact Hx. rewrite Hzeros. cbv beta iota.
    unfold register_parameter.
    change (String.eqb "xyz" EmptyString) with false.
    change (contains_dot "xyz") with false.
    cbn [parameters_ set_denom set_xyz_gradient_accum set_percent_dense].
    rewrite Hp.
    assert (Hex : existsb (String.eqb "xyz") (map fst (parameters_ m))
                  = true).
    { apply existsb_exists. exists "xyz"%string.
      split; [exact Hreg|reflexivity]. }
    rewrite Hex. reflexivity. }
  split; [apply Hraise; reflexivity|].
  do 4 (split; [reflexivity|]).
  rewrite Hraise by reflexivity. reflexivity.
Qed.

(** ** Further properties of the camera *)

(** X11. When the constructor returns and when it throws: it needs an image
    of three dimensions at least (lines 25-26 read its extents 2 and 1) and
    an invertible view transform (line 35); the batched product of line 34
    never throws. *)
Theorem Camera_ctor_returns_iff (id : Z) (R : Matrix3f) (T : Vector3f)
    (FoVx FoVy : F32.t) (image : FloatTensor) (name : string) (uid : Z)
    (scale : F32.t) :
  let view := getWorld2View2 R T Vector3f_Zero scale in
  let r := Camera_ctor id R T FoVx FoVy image name uid scale in
  (is_Ok r = true <->
   (3 <= Torch.dim image)%nat /\ inverse_entries view <> None)
  /\ (Torch.dim image = 0%nat -> r = Raise (NoDimensions 2))
  /\ ((0 < Torch.dim image < 3)%nat ->
      r = Raise (DimOutOfRange 2 (Torch.dim image)))
  /\ ((3 <= Torch.dim image)%nat -> inverse_entries view = None ->
      r = Raise SingularMatrix).
Proof.
  intros view r.
  assert (H0 : Torch.dim image = 0%nat -> r = Raise (NoDimensions 2)).
  { intros Hd. subst r. unfold Camera_ctor, Torch.size, Torch.clamp.
    cbn [Torch.tmap Torch.sizes]. unfold Torch.dim in Hd.
    destruct (Torch.sizes image); [reflexivity|discriminate]. }
  assert (H12 : (0 < Torch.dim image < 3)%nat ->
                r = Raise (DimOutOfRange 2 (Torch.dim image))).
  { intros Hd. subst r. unfold Camera_ctor, Torch.size, Torch.clamp, Torch.dim.
    cbn [Torch.tmap Torch.sizes]. unfold Torch.dim in Hd.
    destruct (Torch.sizes image) as [|a [|b [|c s]]]; cbn in Hd |- *;
      try lia; reflexivity. }
  assert (H3 : (3 <= Torch.dim image)%nat -> inverse_entries view = None ->
               r = Raise SingularMatrix).
  { intros Hd Hinv. apply Camera_ctor_singular; assumption. }
  split; [|split; [exact H0|split; [exact H12|exact H3]]].
  split.
  - intros Hok.
    destruct (Nat.lt_ge_cases (Torch.dim image) 3) as [Hlt|Hge].
    + destruct (Nat.eq_dec (Torch.dim image) 0%nat) as [Hz|Hnz].
      * rewrite (H0 Hz) in Hok. discriminate.
      * rewrite H12 in Hok by lia. discriminate.
    + split; [exact Hge|]. intros Hinv. rewrite (H3 Hge Hinv) in Hok.
      discriminate.
  - intros [Hd Hinv].
    destruct (inverse_entries view) as [inv|] eqn:Hi; [|contradiction].
    destruct (Camera_ctor_ok id R T FoVx FoVy image name uid scale inv
                Hd Hi) as (full & center & _ & Hcam).
    subst r. rewrite Hcam. reflexivity.
Qed.

Lemma F32_clamp_unit_bounds (v : F32.t) :
  F32.ltb (F32.clamp F32.zero F32.one v) F32.zero = false
  /\ F32.ltb F32.one (F32.clamp F32.zero F32.one v) = false.
Proof.
  unfold F32.clamp.
  destruct (F32.is_nan v) eqn:Hnan.
  - destruct v; try discriminate. split; reflexivity.
  - destruct (F32.ltb v F32.zero) eqn:Hlo; [split; reflexivity|].
    destruct (F32.ltb F32.one v) eqn:Hhi; [split; reflexivity|].
    split; assumption.
Qed.

(** X12. Line 24: the image the camera keeps has the shape of the one it was
    given; no element of it is below 0 or above 1, an element that lay
    within these bounds is kept as it is, and a NaN stays a NaN. *)
Theorem Camera_keeps_a_clamped_image (id : Z) (R : Matrix3f) (T : Vector3f)
    (FoVx FoVy : F32.t) (image : FloatTensor) (name : string) (uid : Z)
    (scale : F32.t) (cam : Camera) :
  Camera_ctor id R T FoVx FoVy image name uid scale = Ok cam ->
  Torch.sizes (_original_image cam) = Torch.sizes image
  /\ Forall (fun v => F32.ltb v F32.zero = false
                      /\ F32.ltb F32.one v = false)
       (Torch.data (_original_image cam))
  /\ Forall2 (fun v v' =>
                (F32.ltb v F32.zero = true -> v' = F32.zero)
                /\ (F32.ltb F32.one v = true -> v' = F32.one)
                /\ (F32.ltb v F32.zero = false ->
                    F32.ltb F32.one v = false -> v' = v))
       (Torch.data image) (Torch.data (_original_image cam)).
Proof.
  unfold Camera_ctor.
  destruct (Torch.size _ 2) as [w|e]; [|discriminate].
  destruct (Torch.size _ 1) as [h|e]; [|discriminate].
  cbn [res_bind].
  destruct (full_proj_transform_of _ _) as [full|e]; [|discriminate].
  cbn [res_bind].
  destruct (res_bind (inverse _) _) as [c|e]; [|discriminate].
  cbn [res_bind]. intros [= <-]. cbn [_original_image].
  unfold Torch.clamp, Torch.tmap. cbn [Torch.sizes Torch.data].
  split; [reflexivity|]. split.
  - apply Forall_fmap, Forall_true. intros v. apply F32_clamp_unit_bounds.
  - apply Forall2_fmap_r, Forall_Forall2_diag, Forall_true.
    intros v. unfold F32.clamp, compose. cbv beta.
    destruct (F32.is_nan v) eqn:Hnan.
    + destruct v; try discriminate.
      split; [cbn; discriminate|]. split; [cbn; discriminate|].
      intros _ _. reflexivity.
    + destruct (F32.ltb v F32.zero) eqn:Hlo.
      * split; [intros _; reflexivity|]. split; [|discriminate].
        intros Hhi. exfalso. revert Hlo Hhi. clear.
        destruct v as [[]|[]| |[] mv ev]; vm_compute; discriminate.
      * split; [discriminate|].
        destruct (F32.ltb F32.one v) eqn:Hhi.
        -- split; [intros _; reflexivity|discriminate].
        -- split; [discriminate|intros _ _; reflexivity].
Qed.

(** X13. Line 35: the camera center is a tensor of three elements, the first
    three entries of row 3 of the inverse of the view transform. *)
Theorem Camera_center_is_in_row_3_of_the_inverse (id : Z) (R : Matrix3f)
    (T : Vector3f) (FoVx FoVy : F32.t) (image : FloatTensor)
    (name : string) (uid : Z) (scale : F32.t) (inv : nat -> nat -> F32.t)
    (cam : Camera) :
  inverse_entries (getWorld2View2 R T Vector3f_Zero scale) = Some inv ->
  Camera_ctor id R T FoVx FoVy image name uid scale = Ok cam ->
  _camera_center cam =
    Torch.mkTensor [3%nat] [inv 3%nat 0%nat; inv 3%nat 1%nat; inv 3%nat 2%nat].
Proof.
  intros Hinv.
  assert (Hcenter :
            (i <-- inverse (getWorld2View2 R T Vector3f_Zero scale) ;;
             row <-- Torch.select i 0 3 ;;
             Torch.slice row 0 0 3) =
            Ok (Torch.mkTensor [3%nat]
                  [inv 3%nat 0%nat; inv 3%nat 1%nat; inv 3%nat 2%nat])).
  { unfold inverse. cbn [Torch.sizes getWorld2View2 matrix_of_entries].
    cbn [Nat.eqb]. rewrite Hinv. vm_compute. reflexivity. }
  unfold Camera_ctor. cbv zeta.
  destruct (Torch.size _ 2) as [w|e]; [|discriminate].
  destruct (Torch.size _ 1) as [h|e]; [|discriminate].
  cbn [res_bind].
  destruct (full_proj_transform_of _ _) as [full|e]; [|discriminate].
  cbn [res_bind]. rewrite Hcenter. cbn [res_bind].
  intros [= <-]. reflexivity.
Qed.

(** ** Further properties of [loadCam] *)

(** [loadCam] on a record whose buffer holds the image it describes, when
    the view transform has an inverse. *)
Lemma loadCam_returns (params : ModelParameters) (id : Z)
    (ci : CameraInfo) (hp : Heap) (a : nat) (buf : list Byte.byte)
    (h w c : nat) (inv : nat -> nat -> F32.t) :
  _img_data ci = Some a ->
  hp !! a = Some buf ->
  _img_h ci = Z.of_nat h ->
  _img_w ci = Z.of_nat w ->
  _channels ci = Z.of_nat c ->
  length buf = (h * w * c)%nat ->
  inverse_entries
    (getWorld2View2 (ci_R ci) (ci_T ci) Vector3f_Zero Camera_default_scale)
    = Some inv ->
  exists full center,
    loadCam params id (mkWorld ci hp) =
      (mkWorld (set_img_data None ci) (delete a hp),
       Ok (mkCamera (_camera_ID ci) (ci_R ci) (ci_T ci) (_fov_x ci)
             (_fov_y ci) (ci_image_name ci) id Camera_default_scale
             (Torch.clamp (normalized_image h w c buf) F32.zero F32.one)
             (Z.of_nat w) (Z.of_nat h) f32_100 f32_0_01
             (getWorld2View2 (ci_R ci) (ci_T ci) Vector3f_Zero
                Camera_default_scale)
             (getProjectionMatrix f32_0_01 f32_100 (_fov_x ci) (_fov_y ci))
             full center)).
Proof.
  intros Hptr Hheap Hh Hw Hc Hlen Hinv.
  assert (Hdim : (3 <= Torch.dim (normalized_image h w c buf))%nat)
    by (cbn; lia).
  cbv beta iota zeta delta
    [loadCam exec_bind exec_lift exec_get exec_modify].
  cbn [cam_info heap]. rewrite Hptr, Hh, Hw, Hc.
  unfold pointee. cbn [heap mbind option_bind]. rewrite Hheap.
  cbn [default]. rewrite from_blob_strided_image by assumption.
  change (p <-- Torch.permute _ _ ;; Ok _)
    with (Ok (normalized_image h w c buf)).
  cbv beta iota. unfold free_image. cbn [heap cam_info]. rewrite Hheap.
  cbn [cam_info heap set_img_data _camera_ID ci_R ci_T _fov_x _fov_y
       ci_image_name].
  destruct (Camera_ctor_ok (_camera_ID ci) (ci_R ci) (ci_T ci)
              (_fov_x ci) (_fov_y ci) (normalized_image h w c buf)
              (ci_image_name ci) id Camera_default_scale inv Hdim Hinv)
    as (full & center & _ & Hcam).
  exists full, center. rewrite Hcam. reflexivity.
Qed.

(** X14. The camera [loadCam] returns takes its width and height from the
    record ([_img_w] and [_img_h], although the image was made channel-first
    in between), its identifiers, pose, fields of view and name from the
    record and the [id] argument, and has the default scale. *)
Theorem loadCam_copies_the_record (params : ModelParameters) (id : Z)
    (ci : CameraInfo) (hp : Heap) (a : nat) (buf : list Byte.byte)
    (h w c : nat) (inv : nat -> nat -> F32.t) :
  _img_data ci = Some a ->
  hp !! a = Some buf ->
  _img_h ci = Z.of_nat h ->
  _img_w ci = Z.of_nat w ->
  _channels ci = Z.of_nat c ->
  length buf = (h * w * c)%nat ->
  inverse_entries
    (getWorld2View2 (ci_R ci) (ci_T ci) Vector3f_Zero Camera_default_scale)
    = Some inv ->
  exists cam,
    snd (loadCam params id (mkWorld ci hp)) = Ok cam
    /\ _image_width cam = _img_w ci
    /\ _image_height cam = _img_h ci
    /\ _colmap_id cam = _camera_ID ci
    /\ _uid cam = id
    /\ _R cam = ci_R ci /\ _T cam = ci_T ci
    /\ _FoVx cam = _fov_x ci /\ _FoVy cam = _fov_y ci
    /\ _image_name cam = ci_image_name ci
    /\ _scale cam = Camera_default_scale.
Proof.
  intros Hptr Hheap Hh Hw Hc Hlen Hinv.
  destruct (loadCam_returns params id ci hp a buf h w c inv)
    as (full & center & Hrun); try assumption.
  rewrite Hrun. eexists. split; [reflexivity|].
  cbn. rewrite Hh, Hw. repeat split.
Qed.

(** Every value of a byte, through the value of the byte as a number. *)
Lemma byte_value_in_range (b : Byte.byte) :
  In (Byte.to_N b) (map N.of_nat (seq 0 256)).
Proof.
  apply in_map_iff. exists (N.to_nat (Byte.to_N b)).
  split; [apply N2Nat.id|]. apply in_seq.
  pose proof (Byte.to_N_bounded b). lia.
Qed.

Lemma forall_byte_values (P : N -> bool) :
  forallb P (map N.of_nat (seq 0 256)) = true ->
  forall b, P (Byte.to_N b) = true.
Proof.
  intros Hall b. rewrite forallb_forall in Hall.
  apply Hall, byte_value_in_range.
Qed.

(** A byte divided by 255 lies within [0, 1], and clamping does not change
    it. *)
Lemma normalized_byte_bounds (b : Byte.byte) :
  F32.ltb (F32.div (F32.of_byte b) f32_255) F32.zero = false
  /\ F32.ltb F32.one (F32.div (F32.of_byte b) f32_255) = false.
Proof.
  unfold F32.of_byte.
  pose proof (forall_byte_values
    (fun n =>
       negb (F32.ltb (F32.div (F32.of_Z (Z.of_N n)) f32_255) F32.zero)
       && negb (F32.ltb F32.one (F32.div (F32.of_Z (Z.of_N n)) f32_255))))
    as Hall.
  cbv beta in Hall.
  specialize (Hall ltac:(vm_compute; reflexivity) b).
  apply andb_prop in Hall as [H0 H1].
  apply negb_true_iff in H0, H1. split; assumption.
Qed.

Lemma clamp_normalized_byte (b : Byte.byte) :
  F32.clamp F32.zero F32.one (F32.div (F32.of_byte b) f32_255) =
    F32.div (F32.of_byte b) f32_255.
Proof.
  destruct (normalized_byte_bounds b) as [H0 H1].
  unfold F32.clamp. rewrite H0, H1.
  destruct (F32.is_nan _); reflexivity.
Qed.

Lemma lookup_total_of_byte (l : list Byte.byte) (o : nat) :
  (F32.of_byte <$> l) !!! o = F32.of_byte (l !!! o).
Proof.
  destruct (decide (o < length l)%nat) as [Hlt|Hge].
  - apply list_lookup_total_fmap. exact Hlt.
  - rewrite !list_lookup_total_alt.
    rewrite !lookup_ge_None_2 by (rewrite ?length_fmap; lia).
    vm_compute. reflexivity.
Qed.

Lemma clamp_normalized_image (h w c : nat) (buf : list Byte.byte) :
  Torch.clamp (normalized_image h w c buf) F32.zero F32.one =
    normalized_image h w c buf.
Proof.
  unfold Torch.clamp, normalized_image, Torch.tmap.
  cbn [Torch.sizes Torch.data Torch.materialize]. f_equal.
  rewrite <- list_fmap_compose. apply Forall_fmap_ext_1, Forall_tabulate.
  intros idx _. unfold compose, Torch.get. cbn [Torch.data].
  rewrite lookup_total_of_byte. apply clamp_normalized_byte.
Qed.

(** X15. The image of the camera [loadCam] returns is exactly the channel-
    first image of bytes divided by 255: every byte over 255 lies within [0,
    1], so the clamp of the constructor changes no pixel; byte 0 gives 0.0
    and byte 255 gives 1.0. *)
Theorem loadCam_pixels_are_exact (params : ModelParameters) (id : Z)
    (ci : CameraInfo) (hp : Heap) (a : nat) (buf : list Byte.byte)
    (h w c : nat) (inv : nat -> nat -> F32.t) :
  _img_data ci = Some a ->
  hp !! a = Some buf ->
  _img_h ci = Z.of_nat h ->
  _img_w ci = Z.of_nat w ->
  _channels ci = Z.of_nat c ->
  length buf = (h * w * c)%nat ->
  inverse_entries
    (getWorld2View2 (ci_R ci) (ci_T ci) Vector3f_Zero Camera_default_scale)
    = Some inv ->
  exists cam,
    snd (loadCam params id (mkWorld ci hp)) = Ok cam
    /\ _original_image cam = normalized_image h w c buf
    /\ Forall (fun v => F32.ltb v F32.zero = false
                        /\ F32.ltb F32.one v = false)
         (Torch.data (_original_image cam))
    /\ forall k i j,
         (k < c)%nat -> (i < h)%nat -> (j < w)%nat ->
         let pixel := buf !!! ((i * w + j) * c + k)%nat in
         Torch.get (_original_image cam) [k; i; j] =
           F32.div (F32.of_byte pixel) f32_255
         /\ (pixel = Byte.x00 ->
             Torch.get (_original_image cam) [k; i; j] = F32.zero)
         /\ (pixel = Byte.xff ->
             Torch.get (_original_image cam) [k; i; j] = F32.one).
Proof.
  intros Hptr Hheap Hh Hw Hc Hlen Hinv.
  destruct (loadCam_returns params id ci hp a buf h w c inv)
    as (full & center & Hrun); try assumption.
  rewrite Hrun. eexists. split; [reflexivity|].
  cbn [snd _original_image]. rewrite clamp_normalized_image.
  split; [reflexivity|]. split.
  - rewrite <- (clamp_normalized_image h w c buf).
    unfold Torch.clamp, Torch.tmap. cbn [Torch.data].
    apply Forall_fmap, Forall_true. intros v. apply F32_clamp_unit_bounds.
  - intros k i j Hk Hi Hj.
    rewrite get_normalized_image by assumption.
    split; [reflexivity|]. split; intros ->; vm_compute; reflexivity.
Qed.

Lemma in_zip_fmap {A B} (f : A -> B) (l : list A) (v : A) :
  In v l -> In (v, f v) (zip l (f <$> l)).
Proof.
  induction l as [|u l IH]; [intros []|].
  intros [->|Hin]; [left; reflexivity|right; apply IH; exact Hin].
Qed.

Lemma normalized_byte_order (b b' : Byte.byte) :
  F32.ltb (F32.div (F32.of_byte b) f32_255)
          (F32.div (F32.of_byte b') f32_255) =
    (Byte.to_N b <? Byte.to_N b')%N.
Proof.
  unfold F32.of_byte.
  set (f := fun n : N => F32.div (F32.of_Z (Z.of_N n)) f32_255).
  set (table := zip (map N.of_nat (seq 0 256))
                    (f <$> map N.of_nat (seq 0 256))).
  assert (Htable : forallb
            (fun p =>
               forallb
                 (fun q => Bool.eqb (F32.ltb p.2 q.2) (p.1 <? q.1)%N)
                 table)
            table = true) by (vm_compute; reflexivity).
  assert (Hin : forall v : Byte.byte,
            In (Byte.to_N v, f (Byte.to_N v)) table)
    by (intros v; apply in_zip_fmap, byte_value_in_range).
  rewrite forallb_forall in Htable. specialize (Htable _ (Hin b)).
  rewrite forallb_forall in Htable. specialize (Htable _ (Hin b')).
  apply Bool.eqb_prop in Htable. exact Htable.
Qed.

Lemma byte_to_N_inj (b b' : Byte.byte) :
  Byte.to_N b = Byte.to_N b' -> b = b'.
Proof.
  intros Heq. pose proof (Byte.of_to_N b) as H1.
  rewrite Heq, Byte.of_to_N in H1. congruence.
Qed.

(** X16. The normalisation of line 45 keeps the order of the pixel values:
    of two entries of the image of the camera [loadCam] returns, one is
    below the other exactly when its byte is, so that two entries are equal
    only for equal bytes. *)
Theorem loadCam_keeps_pixel_order (params : ModelParameters) (id : Z)
    (ci : CameraInfo) (hp : Heap) (a : nat) (buf : list Byte.byte)
    (h w c : nat) (inv : nat -> nat -> F32.t) (k i j k' i' j' : nat) :
  _img_data ci = Some a ->
  hp !! a = Some buf ->
  _img_h ci = Z.of_nat h ->
  _img_w ci = Z.of_nat w ->
  _channels ci = Z.of_nat c ->
  length buf = (h * w * c)%nat ->
  inverse_entries
    (getWorld2View2 (ci_R ci) (ci_T ci) Vector3f_Zero Camera_default_scale)
    = Some inv ->
  (k < c)%nat -> (i < h)%nat -> (j < w)%nat ->
  (k' < c)%nat -> (i' < h)%nat -> (j' < w)%nat ->
  exists cam,
    snd (loadCam params id (mkWorld ci hp)) = Ok cam
    /\ let pixel := buf !!! ((i * w + j) * c + k)%nat in
       let pixel' := buf !!! ((i' * w + j') * c + k')%nat in
       F32.ltb (Torch.get (_original_image cam) [k; i; j])
               (Torch.get (_original_image cam) [k'; i'; j']) =
         (Byte.to_N pixel <? Byte.to_N pixel')%N
       /\ (Torch.get (_original_image cam) [k; i; j] =
           Torch.get (_original_image cam) [k'; i'; j'] <->
           pixel = pixel').
Proof.
  intros Hptr Hheap Hh Hw Hc Hlen Hinv Hk Hi Hj Hk' Hi' Hj'.
  destruct (loadCam_returns params id ci hp a buf h w c inv)
    as (full & center & Hrun); try assumption.
  rewrite Hrun. eexists. split; [reflexivity|].
  cbn [snd _original_image]. rewrite clamp_normalized_image.
  rewrite !get_normalized_image by assumption.
  set (pixel := buf !!! ((i * w + j) * c + k)%nat).
  set (pixel' := buf !!! ((i' * w + j') * c + k')%nat).
  split; [apply normalized_byte_order|]. split; [|intros ->; reflexivity].
  intros Heq. apply byte_to_N_inj.
  pose proof (normalized_byte_order pixel pixel') as H1.
  pose proof (normalized_byte_order pixel' pixel) as H2.
  rewrite Heq in H1. rewrite Heq in H2 at 1.
  assert (Hirr : forall v, F32.ltb (F32.div (F32.of_byte pixel') f32_255)
                                   (F32.div (F32.of_byte pixel') f32_255)
                           = v -> v = false).
  { intros v <-. rewrite normalized_byte_order. apply N.ltb_irrefl. }
  apply Hirr in H1. apply Hirr in H2.
  apply N.ltb_ge in H1, H2. lia.
Qed.

Lemma loadCam_out_of_bounds (params : ModelParameters) (id : Z)
    (wd : World) (h w c : nat) :
  _img_h (cam_info wd) = Z.of_nat h ->
  _img_w (cam_info wd) = Z.of_nat w ->
  _channels (cam_info wd) = Z.of_nat c ->
  (length (pointee wd (_img_data (cam_info wd))) < h * w * c)%nat ->
  loadCam params id wd = (wd, Raise OutOfBoundsRead).
Proof.
  intros Hh Hw Hc Hlen.
  cbv beta iota zeta delta
    [loadCam exec_bind exec_lift exec_get exec_modify].
  rewrite Hh, Hw, Hc.
  set (buf := pointee wd (_img_data (cam_info wd))) in *.
  assert (Hblob : Torch.from_blob_strided buf
                    [Z.of_nat h; Z.of_nat w; Z.of_nat c]
                    [Z.of_nat w * Z.of_nat c; Z.of_nat c; 1] =
                  Raise OutOfBoundsRead).
  { unfold Torch.from_blob_strided.
    rewrite !shape_of_cons_nat. cbn [Torch.shape_of res_bind].
    fold (pixel_address w c).
    destruct (forallb _ _) eqn:Hall; [exfalso|reflexivity].
    rewrite forallb_forall in Hall.
    assert (Hpos : (1 <= h /\ 1 <= w /\ 1 <= c)%nat) by nia.
    assert (Hin : in_range [h; w; c] [h - 1; w - 1; c - 1]%nat)
      by (repeat (constructor; [lia|]); constructor).
    pose proof (lookup_tabulate [h; w; c] _ (pixel_address w c) Hin) as Hl.
    apply list_elem_of_lookup_2, list_elem_of_In in Hl.
    apply Hall in Hl. rewrite pixel_address_eq in Hl.
    apply andb_prop in Hl as [_ Hl]. apply Z.ltb_lt in Hl.
    apply Nat2Z.inj_lt in Hl.
    assert (((h - 1) * w + (w - 1)) * c + (c - 1) = h * w * c - 1)%nat.
    { destruct h as [|h']; [lia|]. destruct w as [|w']; [lia|].
      destruct c as [|c']; [lia|]. cbn [Nat.sub]. rewrite !Nat.sub_0_r.
      nia. }
    lia. }
  rewrite Hblob. reflexivity.
Qed.

(** X17. [loadCam] reads height x width x channels bytes through the pointer
    of the record: on a buffer that holds fewer it reads past its end (the
    read out of bounds that the model reports), before anything is released,
    so that the record and the heap are as they were. *)
Theorem loadCam_needs_the_whole_image (params : ModelParameters) (id : Z)
    (ci : CameraInfo) (hp : Heap) (a : nat) (buf : list Byte.byte)
    (h w c : nat) :
  _img_data ci = Some a ->
  hp !! a = Some buf ->
  _img_h ci = Z.of_nat h ->
  _img_w ci = Z.of_nat w ->
  _channels ci = Z.of_nat c ->
  (length buf < h * w * c)%nat ->
  loadCam params id (mkWorld ci hp) = (mkWorld ci hp, Raise OutOfBoundsRead).
Proof.
  intros Hptr Hheap Hh Hw Hc Hlen.
  apply (loadCam_out_of_bounds params id (mkWorld ci hp) h w c);
    try assumption.
  cbn [cam_info]. unfold pointee. rewrite Hptr. cbn [heap mbind option_bind].
  rewrite Hheap. exact Hlen.
Qed.

Lemma loadCam_world (params : ModelParameters) (id : Z)
    (ci : CameraInfo) (hp : Heap) (a : nat) (buf : list Byte.byte)
    (h w c : nat) :
  _img_data ci = Some a ->
  hp !! a = Some buf ->
  _img_h ci = Z.of_nat h ->
  _img_w ci = Z.of_nat w ->
  _channels ci = Z.of_nat c ->
  length buf = (h * w * c)%nat ->
  fst (loadCam params id (mkWorld ci hp)) =
    mkWorld (set_img_data None ci) (delete a hp).
Proof.
  intros Hptr Hheap Hh Hw Hc Hlen.
  cbv beta iota zeta delta
    [loadCam exec_bind exec_lift exec_get exec_modify].
  cbn [cam_info heap]. rewrite Hptr, Hh, Hw, Hc.
  unfold pointee. cbn [heap mbind option_bind]. rewrite Hheap.
  cbn [default]. rewrite from_blob_strided_image by assumption.
  change (p <-- Torch.permute _ _ ;; Ok _)
    with (Ok (normalized_image h w c buf)).
  cbv beta iota. unfold free_image. cbn [heap cam_info]. rewrite Hheap.
  reflexivity.
Qed.

(** X18. A record serves one call of [loadCam]: the call nulls the pointer
    of the record (whether or not a camera is returned), and a second call
    on the same record, for an image that is not empty, reads through the
    null pointer and returns no camera. *)
Theorem loadCam_twice_reads_through_null (params : ModelParameters)
    (id id' : Z) (ci : CameraInfo) (hp : Heap) (a : nat)
    (buf : list Byte.byte) (h w c : nat) :
  _img_data ci = Some a ->
  hp !! a = Some buf ->
  _img_h ci = Z.of_nat h ->
  _img_w ci = Z.of_nat w ->
  _channels ci = Z.of_nat c ->
  length buf = (h * w * c)%nat ->
  (0 < h * w * c)%nat ->
  let after := fst (loadCam params id (mkWorld ci hp)) in
  _img_data (cam_info after) = None
  /\ heap after !! a = None
  /\ loadCam params id' after = (after, Raise OutOfBoundsRead).
Proof.
  intros Hptr Hheap Hh Hw Hc Hlen Hpos after. subst after.
  rewrite (loadCam_world params id ci hp a buf h w c) by assumption.
  cbn [cam_info heap set_img_data _img_data].
  split; [reflexivity|]. split; [apply lookup_delete_eq|].
  apply (loadCam_out_of_bounds params id' _ h w c); assumption.
Qed.
End Model.

(** ** The statements at concrete inputs *)

Lemma oneupSHdegree_saturates_witness :
  exists m0,
    GaussianModel_ctor (F64.of_Z 1) 1000000 3 = Ok m0
    /\ active_sh_degree (fst (repeat_call 8 oneupSHdegree m0)) = 3.
Proof.
  destruct (oneupSHdegree_saturates (F64.of_Z 1) 1000000 3)
    as [_ (m0 & Hctor & _ & _ & Hsat)]; [lia|].
  exists m0. split; [exact Hctor|exact Hsat].
Defined.


Lemma loadCam_normalizes_and_releases_witness :
  exists cam,
    loadCam (fun _ _ _ _ => identity_entry) (fun _ _ _ _ => identity_entry)
      (fun _ => Some identity_entry) unit tt 1
      (mkWorld white_image_info white_image_heap) =
      (mkWorld (set_img_data None white_image_info)
         (delete 5%nat white_image_heap), Ok cam)
    /\ _original_image cam =
         Torch.mkTensor [3; 4; 4]%nat (replicate 48 F32.one).
Proof.
  destruct (loadCam_normalizes_and_releases
              (fun _ _ _ _ => identity_entry)
              (fun _ _ _ _ => identity_entry)
              (fun _ => Some identity_entry) unit tt 1
              white_image_info white_image_heap 5%nat
              (replicate 48 Byte.xff) 4 4 3)
    as (r & Hrun & Hok & _); try reflexivity.
  destruct (Hok identity_entry eq_refl) as (cam & -> & _ & _ & Hones).
  exists cam. split; [exact Hrun|].
  apply Hones; reflexivity.
Defined.

Lemma Camera_reads_image_as_channel_first_witness :
  exists cam,
    Camera_ctor (fun _ _ _ _ => identity_entry)
      (fun _ _ _ _ => identity_entry) (fun _ => Some identity_entry)
      7 zero_rotation Vector3f_Zero F32.one F32.one
      (Torch.mkTensor [2; 5; 3]%nat (replicate 30 F32.zero))
      "channel-last" 1 F32.one = Ok cam
    /\ _image_width cam = 3 /\ _image_height cam = 5.
Proof.
  destruct (Camera_reads_image_as_channel_first
              (fun _ _ _ _ => identity_entry)
              (fun _ _ _ _ => identity_entry)
              (fun _ => Some identity_entry)
              7 zero_rotation Vector3f_Zero F32.one F32.one
              (Torch.mkTensor [2; 5; 3]%nat (replicate 30 F32.zero))
              "channel-last" 1 F32.one identity_entry)
    as (cam & Hcam & _ & _ & _ & Hlast); [cbn; lia|reflexivity|].
  exists cam. split; [exact Hcam|].
  apply (Hlast 2%nat 5%nat). reflexivity.
Defined.

Lemma get_features_concatenates_witness :
  exists t,
    get_features two_point_model = Ok t
    /\ Torch.sizes t = [2; 4; 3]%nat.
Proof.
  destruct (get_features_concatenates two_point_model 2 1 3 3
              eq_refl eq_refl) as (t & Ht & Hs & _).
  exists t. split; [exact Ht|exact Hs].
Defined.


Lemma get_features_rejects_mismatch_witness :
  get_features lopsided_model =
    Raise (CatSizeMismatch 1 [2; 1; 3]%nat [1; 3; 3]%nat)
  /\ get_features flattened_dc_model = Raise (CatRankMismatch 2 3).
Proof.
  split.
  - apply (get_features_rejects_mismatch lopsided_model 2 1 3 1 3 3);
      [reflexivity|reflexivity|left; lia].
  - apply (get_features_rejects_mismatch flattened_dc_model 2 1 3 2 3 3);
      reflexivity.
Defined.

Lemma oneupSHdegree_changes_active_degree_only_witness :
  repeat_call 5 oneupSHdegree constructed_model =
    (set_active_sh_degree 3 constructed_model, Ok tt).
Proof.
  apply (oneupSHdegree_changes_active_degree_only 5 constructed_model);
    cbn; lia.
Defined.

Lemma create_from_pcd_outcome_witness :
  create_from_pcd (fun v => v) (fun v => v) (fun _ _ => F32.zero)
    two_point_cloud (F32.of_Z 2) constructed_model =
    (set_spatial_lr_scale (Some (F32.of_Z 2)) constructed_model,
     Raise (ExpandMismatch [2%nat] [2%nat; 3%nat])).
Proof.
  apply (create_from_pcd_outcome (fun v => v) (fun v => v)
           (fun _ _ => F32.zero) two_point_cloud (F32.of_Z 2)
           constructed_model); cbn; lia.
Defined.

Lemma create_from_pcd_xyz_is_a_flat_prefix_witness :
  Torch.get
    (_xyz (fst (create_from_pcd (fun v => v) (fun v => v)
                  (fun _ _ => F32.zero) three_point_cloud F32.one
                  constructed_model)))
    [1%nat] = F32.of_Z 2.
Proof.
  pose proof (create_from_pcd_xyz_is_a_flat_prefix (fun v => v) (fun v => v)
                (fun _ _ => F32.zero) three_point_cloud F32.one
                constructed_model) as Hxyz.
  cbv zeta in Hxyz.
  destruct Hxyz as (_ & _ & Hget);
    [cbn; lia|cbn; lia|right; reflexivity|].
  apply (Hget 1%nat (mkPoint (F32.of_Z 1) (F32.of_Z 2) (F32.of_Z 3)));
    [cbn; lia|reflexivity].
Defined.

Lemma training_setup_refuses_second_registration_witness :
  snd (training_setup example_params constructed_model) =
    Raise (KeyAlreadyDefined "Parameter" "xyz").
Proof.
  pose proof (training_setup_refuses_second_registration example_params
                constructed_model 0 []) as Hrun.
  cbv zeta in Hrun.
  destruct Hrun as (Hrun & _); [reflexivity|left; reflexivity|].
  rewrite Hrun. reflexivity.
Defined.

Lemma Camera_keeps_a_clamped_image_witness :
  exists cam,
    Camera_ctor (fun _ _ _ _ => identity_entry)
      (fun _ _ _ _ => identity_entry) (fun _ => Some identity_entry)
      7 zero_rotation Vector3f_Zero F32.one F32.one unclamped_image
      "unclamped" 1 F32.one = Ok cam
    /\ Torch.sizes (_original_image cam) = Torch.sizes unclamped_image.
Proof.
  eexists. split; [vm_compute; reflexivity|].
  refine (proj1 (Camera_keeps_a_clamped_image
                   (fun _ _ _ _ => identity_entry)
                   (fun _ _ _ _ => identity_entry)
                   (fun _ => Some identity_entry)
                   7 zero_rotation Vector3f_Zero F32.one F32.one
                   unclamped_image "unclamped" 1 F32.one _ _)).
  vm_compute. reflexivity.
Defined.

Lemma Camera_center_is_in_row_3_of_the_inverse_witness :
  exists cam,
    Camera_ctor (fun _ _ _ _ => identity_entry)
      (fun _ _ _ _ => identity_entry) (fun _ => Some identity_entry)
      7 zero_rotation Vector3f_Zero F32.one F32.one unclamped_image
      "unclamped" 1 F32.one = Ok cam
    /\ _camera_center cam =
         Torch.mkTensor [3%nat] [F32.zero; F32.zero; F32.zero].
Proof.
  eexists. split; [vm_compute; reflexivity|].
  refine (Camera_center_is_in_row_3_of_the_inverse
            (fun _ _ _ _ => identity_entry)
            (fun _ _ _ _ => identity_entry)
            (fun _ => Some identity_entry)
            7 zero_rotation Vector3f_Zero F32.one F32.one
            unclamped_image "unclamped" 1 F32.one identity_entry _
            eq_refl _).
  vm_compute. reflexivity.
Defined.

Lemma loadCam_copies_the_record_witness :
  exists cam,
    snd (loadCam (fun _ _ _ _ => identity_entry)
           (fun _ _ _ _ => identity_entry)
           (fun _ => Some identity_entry) unit tt 1
           (mkWorld white_image_info white_image_heap)) = Ok cam
    /\ _image_width cam = 4 /\ _image_height cam = 4 /\ _colmap_id cam = 7.
Proof.
  destruct (loadCam_copies_the_record
              (fun _ _ _ _ => identity_entry)
              (fun _ _ _ _ => identity_entry)
              (fun _ => Some identity_entry) unit tt 1
              white_image_info white_image_heap 5%nat
              (replicate 48 Byte.xff) 4 4 3 identity_entry)
    as (cam & Hrun & Hw & Hh & Hid & _); try reflexivity.
  exists cam. split; [exact Hrun|]. split; [exact Hw|].
  split; [exact Hh|exact Hid].
Defined.

Lemma loadCam_pixels_are_exact_witness :
  exists cam,
    snd (loadCam (fun _ _ _ _ => identity_entry)
           (fun _ _ _ _ => identity_entry)
           (fun _ => Some identity_entry) unit tt 1
           (mkWorld white_image_info white_image_heap)) = Ok cam
    /\ _original_image cam = normalized_image 4 4 3 (replicate 48 Byte.xff).
Proof.
  destruct (loadCam_pixels_are_exact
              (fun _ _ _ _ => identity_entry)
              (fun _ _ _ _ => identity_entry)
              (fun _ => Some identity_entry) unit tt 1
              white_image_info white_image_heap 5%nat
              (replicate 48 Byte.xff) 4 4 3 identity_entry)
    as (cam & Hrun & Himg & _); try reflexivity.
  exists cam. split; [exact Hrun|exact Himg].
Defined.

Lemma loadCam_keeps_pixel_order_witness :
  exists cam,
    snd (loadCam (fun _ _ _ _ => identity_entry)
           (fun _ _ _ _ => identity_entry)
           (fun _ => Some identity_entry) unit tt 1
           (mkWorld two_byte_image_info two_byte_image_heap)) = Ok cam
    /\ F32.ltb (Torch.get (_original_image cam) [0; 0; 0]%nat)
               (Torch.get (_original_image cam) [1; 0; 0]%nat) = true.
Proof.
  destruct (loadCam_keeps_pixel_order
              (fun _ _ _ _ => identity_entry)
              (fun _ _ _ _ => identity_entry)
              (fun _ => Some identity_entry) unit tt 1
              two_byte_image_info two_byte_image_heap 5%nat
              [Byte.x10; Byte.x20] 1 1 2 identity_entry 0 0 0 1 0 0
              eq_refl eq_refl eq_refl eq_refl eq_refl eq_refl eq_refl
              ltac:(lia) ltac:(lia) ltac:(lia) ltac:(lia) ltac:(lia)
              ltac:(lia))
    as (cam & Hrun & Hlt & _).
  exists cam. split; [exact Hrun|exact Hlt].
Defined.

Lemma loadCam_needs_the_whole_image_witness :
  loadCam (fun _ _ _ _ => identity_entry) (fun _ _ _ _ => identity_entry)
    (fun _ => Some identity_entry) unit tt 1
    (mkWorld white_image_info short_image_heap) =
    (mkWorld white_image_info short_image_heap, Raise OutOfBoundsRead).
Proof.
  apply (loadCam_needs_the_whole_image
           (fun _ _ _ _ => identity_entry)
           (fun _ _ _ _ => identity_entry)
           (fun _ => Some identity_entry) unit tt 1
           white_image_info short_image_heap 5%nat
           (replicate 47 Byte.xff) 4 4 3); try reflexivity.
  cbn. lia.
Defined.

Lemma loadCam_twice_reads_through_null_witness :
  snd (loadCam (fun _ _ _ _ => identity_entry)
         (fun _ _ _ _ => identity_entry)
         (fun _ => Some identity_entry) unit tt 2
         (fst (loadCam (fun _ _ _ _ => identity_entry)
                 (fun _ _ _ _ => identity_entry)
                 (fun _ => Some identity_entry) unit tt 1
                 (mkWorld white_image_info white_image_heap)))) =
    Raise OutOfBoundsRead.
Proof.
  pose proof (loadCam_twice_reads_through_null
                (fun _ _ _ _ => identity_entry)
                (fun _ _ _ _ => identity_entry)
                (fun _ => Some identity_entry) unit tt 1 2
                white_image_info white_image_heap 5%nat
                (replicate 48 Byte.xff) 4 4 3) as Htwice.
  cbv zeta in Htwice.
  specialize (Htwice eq_refl eq_refl eq_refl eq_refl eq_refl eq_refl
                ltac:(cbn; lia)).
  destruct Htwice as (_ & _ & Hrun). rewrite Hrun. reflexivity.
Defined.
